(** * hass-miwifi: the Luci client and the self check

    A shallow embedding of [custom_components/miwifi/luci.py] (the session
    manager, the request dispatcher and the credential hasher) and of
    [custom_components/miwifi/self_check.py] (the capability sweep), with the
    properties of both that the specification states.

    Conventions.
    - A Python [str] is a [string] holding its UTF-8 encoding, so that
      [key.encode()] is the byte sequence of the string itself.
    - A Python object decoded from JSON is a [value]; [None] is [VNone].
    - A coroutine is a state transformer: it takes the state it starts from
      and gives back its outcome ([Ok] or [Raise]) with the state it leaves.
      Awaiting one after another is composing them. *)

From Stdlib Require Import ZArith NArith List String Ascii Bool Lia.
From Stdlib Require Import DecimalString HexadecimalString.
From Stdlib Require DecimalZ HexadecimalFacts HexadecimalPos HexadecimalN.
From Stdlib Require Import Floats.PrimFloat.
Import ListNotations.

Local Open Scope list_scope.
Local Open Scope string_scope.
Set Warnings "-register-all".

(** ** Characters that a string literal cannot hold *)

Definition nl : string := String (ascii_of_nat 10) EmptyString.
Definition dq : string := String (ascii_of_nat 34) EmptyString.

(** ** hashlib.sha1 (FIPS 180-4), on bytes held as [Z] *)

Module Hashlib.
Local Open Scope Z_scope.

Definition wrap32 (x : Z) : Z := x mod 2 ^ 32.

Definition rotl (n x : Z) : Z :=
  wrap32 (Z.lor (Z.shiftl x n) (Z.shiftr x (32 - n))).

Definition not32 (x : Z) : Z := Z.lxor x 0xFFFFFFFF.

(** [n] bytes of [x], most significant first. *)
Definition be_bytes (n : nat) (x : Z) : list Z :=
  map (fun i => Z.shiftr x (8 * Z.of_nat i) mod 256) (rev (seq 0 n)).

Definition pad (msg : list Z) : list Z :=
  let len := Z.of_nat (List.length msg) in
  (msg ++ [0x80] ++ repeat 0 (Z.to_nat ((55 - len) mod 64))
       ++ be_bytes 8 (8 * len))%list.

Fixpoint words (bs : list Z) : list Z :=
  match bs with
  | b0 :: b1 :: b2 :: b3 :: rest =>
      (b0 * 2 ^ 24 + b1 * 2 ^ 16 + b2 * 2 ^ 8 + b3) :: words rest
  | _ => []
  end.

Fixpoint blocks (fuel : nat) (ws : list Z) : list (list Z) :=
  match fuel, ws with
  | S k, _ :: _ => firstn 16 ws :: blocks k (skipn 16 ws)
  | _, _ => []
  end.

(** The message schedule, newest word first: [recent] holds W[t-1], W[t-2], ... *)
Fixpoint expand (n : nat) (recent : list Z) : list Z :=
  match n with
  | O => recent
  | S k =>
      let x := Z.lxor (Z.lxor (nth 2 recent 0) (nth 7 recent 0))
                      (Z.lxor (nth 13 recent 0) (nth 15 recent 0)) in
      expand k (rotl 1 x :: recent)
  end.

Definition schedule (block : list Z) : list Z := rev (expand 64 (rev block)).

Definition f (t : nat) (b c d : Z) : Z :=
  if (t <? 20)%nat then Z.lor (Z.land b c) (Z.land (not32 b) d)
  else if (t <? 40)%nat then Z.lxor (Z.lxor b c) d
  else if (t <? 60)%nat then
    Z.lor (Z.lor (Z.land b c) (Z.land b d)) (Z.land c d)
  else Z.lxor (Z.lxor b c) d.

Definition K (t : nat) : Z :=
  if (t <? 20)%nat then 0x5A827999
  else if (t <? 40)%nat then 0x6ED9EBA1
  else if (t <? 60)%nat then 0x8F1BBCDC
  else 0xCA62C1D6.

Definition state : Type := Z * Z * Z * Z * Z.

Definition round (h : state) (tw : nat * Z) : state :=
  let '(a, b, c, d, e) := h in
  let '(t, w) := tw in
  (wrap32 (rotl 5 a + f t b c d + e + K t + w), a, rotl 30 b, c, d).

Definition compress (h : state) (block : list Z) : state :=
  let '(h0, h1, h2, h3, h4) := h in
  let '(a, b, c, d, e) :=
    fold_left round (combine (seq 0 80) (schedule block)) h in
  (wrap32 (h0 + a), wrap32 (h1 + b), wrap32 (h2 + c), wrap32 (h3 + d),
   wrap32 (h4 + e)).

Definition initial : state :=
  (0x67452301, 0xEFCDAB89, 0x98BADCFE, 0x10325476, 0xC3D2E1F0).

Definition digest (msg : list Z) : list Z :=
  let ws := words (pad msg) in
  let '(h0, h1, h2, h3, h4) :=
    fold_left compress (blocks (List.length ws) ws) initial in
  (be_bytes 4 h0 ++ be_bytes 4 h1 ++ be_bytes 4 h2 ++ be_bytes 4 h3
     ++ be_bytes 4 h4)%list.

Definition hex_digit (d : Z) : ascii :=
  match String.get (Z.to_nat d) "0123456789abcdef" with
  | Some c => c
  | None => "0"%char
  end.

Fixpoint hex_of_bytes (bs : list Z) : string :=
  match bs with
  | [] => EmptyString
  | b :: rest =>
      String (hex_digit (b / 16)) (String (hex_digit (b mod 16)) (hex_of_bytes rest))
  end.

(** [key.encode()]: the bytes of a string. *)
Definition encode (s : string) : list Z :=
  map (fun a => Z.of_N (N_of_ascii a)) (list_ascii_of_string s).

Definition hexdigest (msg : list Z) : string := hex_of_bytes (digest msg).
End Hashlib.

(** ** Python objects, exceptions and outcomes *)

(** What [json.loads] can return, and what the client stores of it. *)
Inductive value : Type :=
| VNone
| VBool (b : bool)
| VInt (z : Z)
| VFloat (x : float)
| VStr (s : string)
| VList (items : list value)
| VDict (items : list (string * value)).

(** The exception classes that the two modules raise, catch or let through. *)
Inductive exn : Type :=
| LuciError
| LuciConnectionException
| LuciTokenException
| HTTPError
| JSONDecodeError
| UnicodeDecodeError
| TypeError
| KeyError
| AttributeError
| RuntimeError.

(** Modelled from the spec: [exceptions.py] is not among the sources. The
    spec's taxonomy has the connection error and the token error as the two
    kinds of [LuciError], the class the sweep catches. *)
Definition isinstance_LuciError (e : exn) : bool :=
  match e with
  | LuciError | LuciConnectionException | LuciTokenException => true
  | _ => false
  end.

Inductive result (A : Type) : Type :=
| Ok (a : A)
| Raise (e : exn).
Arguments Ok {A} a.
Arguments Raise {A} e.

Definition void {A : Type} (r : result A) : result unit :=
  match r with
  | Ok _ => Ok tt
  | Raise e => Raise e
  end.

(** ** dict: insertion-ordered, a key keeps the place of its first insertion *)

Section Dict.
Context {V : Type}.

Fixpoint dict_get (k : string) (d : list (string * V)) : option V :=
  match d with
  | [] => None
  | (k', v) :: rest => if String.eqb k' k then Some v else dict_get k rest
  end.

Definition dict_mem (k : string) (d : list (string * V)) : bool :=
  match dict_get k d with
  | Some _ => true
  | None => false
  end.

(** [d[k] = v] *)
Fixpoint dict_set (k : string) (v : V) (d : list (string * V)) : list (string * V) :=
  match d with
  | [] => [(k, v)]
  | (k', v') :: rest =>
      if String.eqb k' k then (k', v) :: rest else (k', v') :: dict_set k v rest
  end.
End Dict.

(** ** The operators the client applies to decoded data *)

Definition is_substring (needle hay : string) : bool :=
  match String.index 0 needle hay with
  | Some _ => true
  | None => false
  end.

(** [needle in container] for a [str] needle. *)
Definition py_contains (needle : string) (container : value) : result bool :=
  match container with
  | VDict items => Ok (dict_mem needle items)
  | VList items =>
      Ok (existsb (fun x => match x with
                            | VStr s => String.eqb needle s
                            | _ => false
                            end) items)
  | VStr s => Ok (is_substring needle s)
  | _ => Raise TypeError
  end.

(** [container[key]] for a [str] key. *)
Definition py_getitem (container : value) (key : string) : result value :=
  match container with
  | VDict items =>
      match dict_get key items with
      | Some v => Ok v
      | None => Raise KeyError
      end
  | _ => Raise TypeError
  end.

(** [v > 0] *)
Definition py_gt0 (v : value) : result bool :=
  match v with
  | VInt z => Ok (0 <? z)%Z
  | VBool b => Ok b
  | VFloat x => Ok (PrimFloat.ltb PrimFloat.zero x)
  | _ => Raise TypeError
  end.

(** The values [>] compares with an [int]: numbers, and booleans as 0 and 1. *)
Definition is_number (v : value) : bool :=
  match v with
  | VInt _ | VFloat _ | VBool _ => true
  | _ => false
  end.

Definition str_of_int (z : Z) : string :=
  DecimalString.NilZero.string_of_int (Z.to_int z).

(** ["{}".format(v)]. The text of floats and containers is the interpreter's
    [repr], which the environment supplies. *)
Definition py_str (repr : value -> string) (v : value) : string :=
  match v with
  | VNone => "None"
  | VBool true => "True"
  | VBool false => "False"
  | VInt z => str_of_int z
  | VStr s => s
  | _ => repr v
  end.

Fixpoint endswith_slash (s : string) : bool :=
  match s with
  | EmptyString => false
  | String c EmptyString => Ascii.eqb c "/"
  | String _ rest => endswith_slash rest
  end.

(** [s[:-1]] *)
Fixpoint drop_last (s : string) : string :=
  match s with
  | EmptyString => EmptyString
  | String _ EmptyString => EmptyString
  | String c rest => String c (drop_last rest)
  end.

(** ** const.py *)

(** Modelled from the spec: [const.py] is not among the sources; the
    constants the two modules import are parameters of the model.
    [CLIENT_URL] stands for [CLIENT_URL.format(ip=...)]. *)
Record Const : Type := {
  DEFAULT_TIMEOUT : Z;
  CLIENT_ADDRESS : string;
  CLIENT_URL : string -> string;
  CLIENT_USERNAME : string;
  CLIENT_LOGIN_TYPE : value;
  CLIENT_NONCE_TYPE : value;
  CLIENT_PUBLIC_KEY : string;
  DOMAIN : string;
  NAME : string
}.

(** ** The transport and the rest of the environment *)

Inductive verb : Type := GET | POST.

Record Request : Type := {
  req_verb : verb;
  req_url : string;
  req_data : list (string * string);
  req_timeout : Z
}.

Record Response : Type := {
  status_code : Z;
  content : string
}.

(** What awaiting [client.get] or [client.post] ends in on a client that has
    been entered: a response, an [httpx.HTTPError], or an exception of
    another class (httpx raises [InvalidURL] for a URL it cannot parse, a
    [RuntimeError] on a client that is closed). *)
Inductive transport : Type :=
| Replied (response : Response)
| Failed
| Crashed (e : exn).

(** Everything outside the two modules: the decoder, the HTTP client, the
    router (its answer may depend on all it was sent before), the clock, the
    random source and the interpreter's [repr]. [aenter] is what entering
    [async with self._client] ends in on a client entered that many times
    before: [None] when the client opens, the exception it raises otherwise
    (an [httpx.AsyncClient] left once is closed and raises [RuntimeError];
    a subclass that overrides [__aenter__] may open every time).
    [random_random] stands for [int(random.random() * 1000)]. *)
Record Env : Type := {
  json_loads : string -> result value;
  aenter : nat -> option exn;
  router : list Request -> Request -> transport;
  uuid_getnode : N;
  time_time : nat -> Z;
  random_random : nat -> Z;
  repr : value -> string
}.

(** The world a call runs in: the requests sent so far, the readings taken
    of the clock and of the random source, and the number of times the HTTP
    client has been entered and left. *)
Record World : Type := {
  sent : list Request;
  draws : nat;
  entered : nat
}.

(** ** LuciClient *)

Record LuciClient : Type := {
  _ip : string;
  _password : option string;
  _timeout : Z;
  _token : value;
  _url : string
}.

Definition with_token (t : value) (c : LuciClient) : LuciClient :=
  {| _ip := _ip c; _password := _password c; _timeout := _timeout c;
     _token := t; _url := _url c |}.

(** A method of the client: from the object and the world before the call
    to the outcome and both after it (a raise keeps what was done so far). *)
Definition M (A : Type) : Type :=
  LuciClient -> World -> result A * LuciClient * World.

Definition ret {A : Type} (a : A) : M A := fun c w => (Ok a, c, w).

Definition raise {A : Type} (e : exn) : M A := fun c w => (Raise e, c, w).

Definition lift {A : Type} (r : result A) : M A := fun c w => (r, c, w).

Definition bind {A B : Type} (m : M A) (k : A -> M B) : M B :=
  fun c w =>
    match m c w with
    | (Ok a, c', w') => k a c' w'
    | (Raise e, c', w') => (Raise e, c', w')
    end.

Notation "x <- m ;; k" := (bind m (fun x => k))
  (at level 61, m at next level, right associativity).
Notation "' pat <- m ;; k" := (bind m (fun x => match x with pat => k end))
  (at level 61, pat pattern, m at next level, right associativity).

(** [try: body / except HTTPError: raise LuciConnectionException()] *)
Definition except_HTTPError {A : Type} (body : M A) : M A :=
  fun c w =>
    match body c w with
    | (Raise HTTPError, c', w') => (Raise LuciConnectionException, c', w')
    | r => r
    end.

Definition self : M LuciClient := fun c w => (Ok c, c, w).

Definition set_token (t : value) : M unit := fun c w => (Ok tt, with_token t c, w).

Section Client.
Variable cfg : Const.
Variable env : Env.

(** [async with self._client as client: body]. When the client cannot be
    entered the body is not run; when it can, it is left, and so entered
    once more, however the body ends. *)
Definition async_with_client {A : Type} (body : M A) : M A :=
  fun c w =>
    match aenter env (entered w) with
    | Some e => (Raise e, c, w)
    | None =>
        let '(r, c', w') := body c w in
        (r, c', {| sent := sent w'; draws := draws w'; entered := S (entered w') |})
    end.

(** [await client.get(...)] / [await client.post(...)] *)
Definition send (req : Request) : M Response :=
  fun c w =>
    let w' := {| sent := (sent w ++ [req])%list; draws := draws w;
                 entered := entered w |} in
    match router env (sent w) req with
    | Replied response => (Ok response, c, w')
    | Failed => (Raise HTTPError, c, w')
    | Crashed e => (Raise e, c, w')
    end.

Definition client_get (url : string) (timeout : Z) : M Response :=
  send {| req_verb := GET; req_url := url; req_data := []; req_timeout := timeout |}.

Definition client_post (url : string) (data : list (string * string)) (timeout : Z)
  : M Response :=
  send {| req_verb := POST; req_url := url; req_data := data; req_timeout := timeout |}.

Definition __init__ (ip : string) (password : option string) (timeout : Z)
  : LuciClient :=
  let ip := if endswith_slash ip then drop_last ip else ip in
  {| _ip := ip; _password := password; _timeout := timeout;
     _token := VNone; _url := CLIENT_URL cfg ip |}.

(** *** Credential hasher *)

Definition sha1 (key : string) : string :=
  Hashlib.hexdigest (Hashlib.encode key).

Definition zfill (width : nat) (s : string) : string :=
  string_of_list_ascii (repeat "0"%char (width - String.length s)) ++ s.

(** [f"{uuid.getnode():012x}"], then the six pairs joined by a colon. *)
Definition get_mac_address : string :=
  let as_hex :=
    zfill 12 (HexadecimalString.NilZero.string_of_uint
                (N.to_hex_uint (uuid_getnode env))) in
  String.concat ":" (map (fun i => String.substring i 2 as_hex)
                         [0; 2; 4; 6; 8; 10]%nat).

Definition generate_nonce : M string :=
  fun c w =>
    (Ok (py_str (repr env) (CLIENT_NONCE_TYPE cfg) ++ "_" ++ get_mac_address
           ++ "_" ++ str_of_int (time_time env (draws w))
           ++ "_" ++ str_of_int (random_random env (draws w))),
     c, {| sent := sent w; draws := S (draws w); entered := entered w |}).

(** [password + CLIENT_PUBLIC_KEY] is a [TypeError] when the password is [None]. *)
Definition generate_password_hash (nonce : string) (password : option string)
  : M string :=
  match password with
  | Some password => ret (sha1 (nonce ++ sha1 (password ++ CLIENT_PUBLIC_KEY cfg)))
  | None => raise TypeError
  end.

(** *** Session manager *)

Definition login : M value :=
  nonce <- generate_nonce ;;
  c <- self ;;
  let url := _url c ++ "/api/xqsystem/login" in
  '(response, data) <-
    except_HTTPError
      (response <-
         async_with_client
           (hash <- generate_password_hash nonce (_password c) ;;
            client_post url
              [("username", CLIENT_USERNAME cfg);
               ("logtype", py_str (repr env) (CLIENT_LOGIN_TYPE cfg));
               ("password", hash);
               ("nonce", nonce)]
              (_timeout c)) ;;
       data <- lift (json_loads env (content response)) ;;
       ret (response, data)) ;;
  if negb (status_code response =? 200)%Z then raise LuciTokenException
  else
    has_token <- lift (py_contains "token" data) ;;
    if negb has_token then raise LuciTokenException
    else
      token <- lift (py_getitem data "token") ;;
      _ <- set_token token ;;
      ret data.

Definition logout : M unit :=
  c <- self ;;
  match _token c with
  | VNone => ret tt
  | token =>
      let url := _url c ++ "/;stok=" ++ py_str (repr env) token ++ "/web/logout" in
      fun c w =>
        match async_with_client (client_get url (_timeout c)) c w with
        | (Ok _, c', w') => (Ok tt, c', w')
        | (Raise HTTPError, c', w') => (Ok tt, c', w')
        | (Raise e, c', w') => (Raise e, c', w')
        end
  end.

(** *** Request dispatcher *)

Definition get (path : string) (use_stok : bool) : M value :=
  c <- self ;;
  let url :=
    _url c ++ "/"
      ++ (if use_stok then ";stok=" ++ py_str (repr env) (_token c) ++ "/" else "")
      ++ "api/" ++ path in
  data <-
    except_HTTPError
      (response <- async_with_client (client_get url (_timeout c)) ;;
       lift (json_loads env (content response))) ;;
  has_code <- lift (py_contains "code" data) ;;
  if negb has_code then raise LuciTokenException
  else
    code <- lift (py_getitem data "code") ;;
    positive <- lift (py_gt0 code) ;;
    if positive then raise LuciTokenException else ret data.

(** *** Endpoints *)

Definition topo_graph : M value := get "misystem/topo_graph" false.
Definition init_info : M value := get "xqsystem/init_info" true.
Definition status : M value := get "misystem/status" true.
Definition new_status : M value := get "misystem/newstatus" true.
Definition mode : M value := get "xqnetwork/mode" true.
Definition wifi_status : M value := get "xqnetwork/wifi_status" true.
Definition wifi_detail_all : M value := get "xqnetwork/wifi_detail_all" true.
Definition wan_info : M value := get "xqnetwork/wan_info" true.
Definition reboot : M value := get "xqsystem/reboot" true.

Definition led (state : option Z) : M value :=
  get ("misystem/led" ++ match state with
                         | Some on => "?on=" ++ str_of_int on
                         | None => ""
                         end) true.

Definition wifi_turn_on (index : Z) : M value :=
  get ("xqnetwork/wifi_up?index=" ++ str_of_int index) true.

Definition wifi_turn_off (index : Z) : M value :=
  get ("xqnetwork/wifi_down?index=" ++ str_of_int index) true.

Definition device_list : M value := get "misystem/devicelist" true.

Definition wifi_connect_devices : M value :=
  get "xqnetwork/wifi_connect_devices" true.
End Client.

(** ** self_check.py *)

Definition SELF_CHECK_METHODS : list (string * string) :=
  [("xqsystem/login", "🟢");
   ("xqsystem/init_info", "🟢");
   ("misystem/status", "status");
   ("xqnetwork/mode", "mode");
   ("misystem/topo_graph", "topo_graph");
   ("xqsystem/check_rom_update", "rom_update");
   ("xqnetwork/wan_info", "wan_info");
   ("misystem/led", "led");
   ("xqnetwork/wifi_detail_all", "wifi_detail_all");
   ("xqnetwork/wifi_diag_detail_all", "wifi_diag_detail_all");
   ("xqnetwork/avaliable_channels", "avaliable_channels");
   ("xqnetwork/wifi_connect_devices", "wifi_connect_devices");
   ("misystem/devicelist", "device_list");
   ("xqnetwork/wifiap_signal", "wifi_ap_signal");
   ("misystem/newstatus", "new_status");
   ("xqsystem/reboot", "⚪");
   ("xqsystem/upgrade_rom", "⚪");
   ("xqsystem/flash_permission", "⚪");
   ("xqnetwork/set_wifi", "⚪");
   ("xqnetwork/set_wifi_without_restart", "⚪")].

(** [method in ["🟢", "🔴", "⚪"]] *)
Definition is_sentinel (method : string) : bool :=
  existsb (String.eqb method) ["🟢"; "🔴"; "⚪"].

(** What [getattr(client, method)] finds: a bound method, called with no
    argument, or some other object, of which the sweep tests the truth. *)
Inductive attribute (S : Type) : Type :=
| Method (call : S -> result unit * S)
| Plain (truthy : bool).
Arguments Method {S} call.
Arguments Plain {S} truthy.

(** The client as the sweep sees it. [None] is an [AttributeError]. *)
Record Client (S : Type) : Type := {
  getattr : S -> string -> option (attribute S);
  ip : S -> option string
}.
Arguments getattr {S} _ _ _.
Arguments ip {S} _ _.

(** The calls of a sweep, as they begin and end. *)
Inductive event : Type :=
| Started (method : string)
| Resolved (method : string) (outcome : result unit).

(** What the sweep takes from Home Assistant: the issue tracker of the
    integration found by [async_get_integration], and [urllib.parse.quote_plus]. *)
Record Host : Type := {
  issue_tracker : string;
  quote_plus : string -> string
}.

Section SelfCheck.
Context {S : Type}.
Variable cfg : Const.
Variable host : Host.
Variable client : Client S.

(** The body of the first loop, for one entry of the catalog. *)
Definition probe (entry : string * string) (data : list (string * string)) (s : S)
  : result (list (string * string)) * S * list event :=
  let '(code, method) := entry in
  if is_sentinel method then (Ok (dict_set code method data), s, [])
  else
    match getattr client s method with
    | None => (Raise AttributeError, s, [])
    | Some (Plain false) => (Ok data, s, [])
    | Some (Plain true) => (Raise TypeError, s, [])
    | Some (Method call) =>
        match call s with
        | (Ok tt, s') =>
            (Ok (dict_set code "🟢" data), s',
             [Started method; Resolved method (Ok tt)])
        | (Raise e, s') =>
            if isinstance_LuciError e
            then (Ok (dict_set code "🔴" data), s',
                  [Started method; Resolved method (Raise e)])
            else (Raise e, s', [Started method; Resolved method (Raise e)])
        end
    end.

Fixpoint probe_all (catalog : list (string * string))
         (data : list (string * string)) (s : S)
  : result (list (string * string)) * S * list event :=
  match catalog with
  | [] => (Ok data, s, [])
  | entry :: rest =>
      match probe entry data s with
      | (Ok data', s', trace) =>
          let '(r, s'', trace') := probe_all rest data' s' in
          (r, s'', (trace ++ trace')%list)
      | (Raise e, s', trace) => (Raise e, s', trace)
      end
  end.

(** The second loop: one line for each item of [data]. *)
Definition check_list (data : list (string * string)) : string :=
  fold_left (fun message item =>
               message ++ nl ++ " * " ++ fst item ++ ": " ++ snd item)
            data "Check list:".

(** What follows the loops: title, link and message, handed with the
    source name to [pn.async_create]. *)
Definition notification (address model : string) (data : list (string * string))
  : string * string :=
  let title :=
    "Router " ++ address ++ " not supported." ++ nl ++ nl ++ "Model: " ++ model in
  let message := check_list data in
  let link :=
    issue_tracker host ++ "/new?title="
      ++ quote_plus host ("Add supports " ++ model)
      ++ "&body=" ++ quote_plus host message in
  let message := title ++ nl ++ nl ++ message ++ nl ++ nl in
  let message :=
    message ++ "<a href=" ++ dq ++ link ++ dq ++ " target=" ++ dq ++ "_blank" ++ dq
            ++ ">Create an issue with the data from this post to add support</a>" in
  (message, NAME cfg).

(** The sweep over a catalog; its value is the notification. [client.ip]
    is read once the first loop is over. *)
Definition self_check (catalog : list (string * string)) (model : string) (s : S)
  : result (string * string) * S * list event :=
  match probe_all catalog [] s with
  | (Raise e, s', trace) => (Raise e, s', trace)
  | (Ok data, s', trace) =>
      match ip client s' with
      | None => (Raise AttributeError, s', trace)
      | Some address => (Ok (notification address model data), s', trace)
      end
  end.

Definition async_self_check (model : string) (s : S)
  : result (string * string) * S * list event :=
  self_check SELF_CHECK_METHODS model s.
End SelfCheck.

(** What the properties of the sweep read off a catalog and off a trace. *)

Definition probeable (catalog : list (string * string)) : list (string * string) :=
  filter (fun entry => negb (is_sentinel (snd entry))) catalog.

Definition started (trace : list event) : list string :=
  flat_map (fun e => match e with
                     | Started method => [method]
                     | Resolved _ _ => []
                     end) trace.

(** [xs] in the order of [ys], with nothing twice that is not twice there. *)
Fixpoint subsequence (xs ys : list string) : Prop :=
  match ys with
  | [] => xs = []
  | y :: ys' =>
      match xs with
      | [] => True
      | x :: xs' => (x = y /\ subsequence xs' ys') \/ subsequence xs ys'
      end
  end.

(** Every call ends before the next one begins. *)
Fixpoint sequential (trace : list event) : Prop :=
  match trace with
  | [] => True
  | Started m :: Resolved m' _ :: rest => m = m' /\ sequential rest
  | _ => False
  end.

(** Every probeable entry names a method of the client, and calling it ends
    in a return or in a [LuciError]. *)
Definition well_behaved {S : Type} (client : Client S)
           (catalog : list (string * string)) : Prop :=
  forall code method s,
    In (code, method) catalog ->
    is_sentinel method = false ->
    exists call,
      getattr client s method = Some (Method call)
      /\ match fst (call s) with
         | Ok _ => True
         | Raise e => isinstance_LuciError e = true
         end.

(** An item of [data] is what the sweep records for an entry: under its
    code, the sentinel of a sentinel entry, and green or red for a probed one. *)
Definition recorded (entry item : string * string) : Prop :=
  fst item = fst entry
  /\ if is_sentinel (snd entry) then snd item = snd entry
     else snd item = "🟢" \/ snd item = "🔴".

(** The keys of a dict filled in this order: each at its first occurrence. *)
Definition first_occurrences (keys : list string) : list string :=
  fold_left (fun seen k =>
               if existsb (String.eqb k) seen then seen else (seen ++ [k])%list)
            keys [].

(** The lines of the check list, one for each item. *)
Definition report_lines (data : list (string * string)) : list string :=
  map (fun item => " * " ++ fst item ++ ": " ++ snd item) data.

(** The sweep of [catalog] never ends well on this client: from any data
    and any state it raises something that is no [LuciError], having begun
    no other calls than the first few of [calls], in their order. *)
Definition stops_within {S : Type} (client : Client S)
           (catalog : list (string * string)) (calls : list string) : Prop :=
  forall (data : list (string * string)) (s : S),
  exists e n,
    fst (fst (probe_all client catalog data s)) = Raise e
    /\ isinstance_LuciError e = false
    /\ started (snd (probe_all client catalog data s)) = firstn n calls.

(** ** The LuciClient of luci.py as the client of the sweep *)

Definition py_truthy (v : value) : bool :=
  match v with
  | VNone => false
  | VBool b => b
  | VInt z => negb (z =? 0)%Z
  | VFloat x => negb (PrimFloat.eqb x PrimFloat.zero)
  | VStr s => negb (String.eqb s "")
  | VList items => match items with [] => false | _ => true end
  | VDict items => match items with [] => false | _ => true end
  end.

Section LuciClientObject.
Variable cfg : Const.
Variable env : Env.

(** What the names that [LuciClient] inherits from [object] and from its
    class (all of them of the form [__name__]) resolve to: the interpreter's
    business, a parameter here. *)
Variable inherited : string -> option (attribute (LuciClient * World)).

(** [await method()] for a coroutine method. *)
Definition bound {A : Type} (m : M A) : attribute (LuciClient * World) :=
  Method (fun s => let '(r, c, w) := m (fst s) (snd s) in (void r, (c, w))).

(** A method that cannot be called without arguments. *)
Definition needs_arguments : attribute (LuciClient * World) :=
  Method (fun s => (Raise TypeError, s)).

(** [await method()] for a plain method: it is called, and what it returns
    cannot be awaited. *)
Definition not_awaitable {A : Type} (m : M A) : attribute (LuciClient * World) :=
  Method (fun s =>
            let '(r, c, w) := m (fst s) (snd s) in
            (match r with
             | Ok _ => Raise TypeError
             | Raise e => Raise e
             end, (c, w))).

Definition is_dunder (name : string) : bool :=
  String.prefix "__" name
  && String.eqb (String.substring (String.length name - 2) 2 name) "__".

(** [getattr(client, name)]: the names the class body and [__init__] define,
    then the inherited ones; any other name is no attribute. The class has
    no [ip]. *)
Definition LuciClient_getattr (s : LuciClient * World) (name : string)
  : option (attribute (LuciClient * World)) :=
  match
    dict_get name
      [("__init__", needs_arguments);
       ("login", bound (login cfg env));
       ("logout", bound (logout env));
       ("get", needs_arguments);
       ("topo_graph", bound (topo_graph env));
       ("init_info", bound (init_info env));
       ("status", bound (status env));
       ("new_status", bound (new_status env));
       ("mode", bound (mode env));
       ("wifi_status", bound (wifi_status env));
       ("wifi_detail_all", bound (wifi_detail_all env));
       ("wan_info", bound (wan_info env));
       ("reboot", bound (reboot env));
       ("led", bound (led env None));
       ("wifi_turn_on", needs_arguments);
       ("wifi_turn_off", needs_arguments);
       ("device_list", bound (device_list env));
       ("wifi_connect_devices", bound (wifi_connect_devices env));
       ("sha1", needs_arguments);
       ("get_mac_address", not_awaitable (ret (get_mac_address env)));
       ("generate_nonce", not_awaitable (generate_nonce cfg env));
       ("generate_password_hash", needs_arguments);
       ("_client", Plain true);
       ("_ip", Plain (py_truthy (VStr (_ip (fst s)))));
       ("_password", Plain (match _password (fst s) with
                            | Some p => py_truthy (VStr p)
                            | None => false
                            end));
       ("_timeout", Plain (py_truthy (VInt (_timeout (fst s)))));
       ("_token", Plain (py_truthy (_token (fst s))));
       ("_url", Plain (py_truthy (VStr (_url (fst s)))))]
  with
  | Some found => Some found
  | None => if is_dunder name then inherited name else None
  end.

Definition LuciClient_object : Client (LuciClient * World) :=
  {| getattr := LuciClient_getattr; ip := fun _ => None |}.
End LuciClientObject.

(** ** A reference decoder, to run the model on concrete replies

    The properties below hold for every decoder. To evaluate the client on a
    concrete reply one is needed: this one reads the JSON documents made of
    objects, arrays, strings without escapes, integers, [true], [false] and
    [null], as [json.loads] does, and rejects every other text. It is used
    on such documents and on texts that are not JSON at all. *)

Module Json.
Definition is_ws (c : ascii) : bool :=
  existsb (N.eqb (N_of_ascii c)) [32; 9; 10; 13]%N.

Definition digit_of (c : ascii) : option Z :=
  let n := Z.of_N (N_of_ascii c) in
  if ((48 <=? n) && (n <=? 57))%Z then Some (n - 48)%Z else None.

Fixpoint skip_ws (s : string) : string :=
  match s with
  | String c rest => if is_ws c then skip_ws rest else s
  | EmptyString => s
  end.

Fixpoint digits (acc : Z) (s : string) : Z * string :=
  match s with
  | String c rest =>
      match digit_of c with
      | Some d => digits (10 * acc + d)%Z rest
      | None => (acc, s)
      end
  | EmptyString => (acc, s)
  end.

(** A fraction or an exponent follows: the number is a float. *)
Definition float_follows (s : string) : bool :=
  match s with
  | String c _ => existsb (Ascii.eqb c) ["."; "e"; "E"]%char
  | EmptyString => false
  end.

Definition number (s : string) : option (Z * string) :=
  match s with
  | String c rest =>
      match digit_of c with
      | Some 0%Z => if float_follows rest then None else Some (0%Z, rest)
      | Some d =>
          let '(n, rest') := digits d rest in
          if float_follows rest' then None else Some (n, rest')
      | None => None
      end
  | EmptyString => None
  end.

(** The characters of a string up to its closing quote. *)
Fixpoint chars (s : string) : option (string * string) :=
  match s with
  | EmptyString => None
  | String c rest =>
      if Ascii.eqb c (ascii_of_nat 34) then Some (EmptyString, rest)
      else if Ascii.eqb c (ascii_of_nat 92) || (N_of_ascii c <? 32)%N then None
      else match chars rest with
           | Some (body, rest') => Some (String c body, rest')
           | None => None
           end
  end.

Definition literal (word : string) (v : value) (s : string)
  : option (value * string) :=
  if String.prefix word s
  then Some (v, String.substring (String.length word)
                                 (String.length s - String.length word) s)
  else None.

Fixpoint parse (fuel : nat) (s : string) : option (value * string) :=
  match fuel with
  | O => None
  | S k =>
      match skip_ws s with
      | EmptyString => None
      | String c rest as text =>
          if Ascii.eqb c "n" then literal "null" VNone text
          else if Ascii.eqb c "t" then literal "true" (VBool true) text
          else if Ascii.eqb c "f" then literal "false" (VBool false) text
          else if Ascii.eqb c (ascii_of_nat 34) then
            match chars rest with
            | Some (body, rest') => Some (VStr body, rest')
            | None => None
            end
          else if Ascii.eqb c "-" then
            match number rest with
            | Some (n, rest') => Some (VInt (- n), rest')
            | None => None
            end
          else if Ascii.eqb c "[" then
            match skip_ws rest with
            | String "]" rest' => Some (VList [], rest')
            | _ => elements k rest
            end
          else if Ascii.eqb c "{" then
            match skip_ws rest with
            | String "}" rest' => Some (VDict [], rest')
            | _ => members k [] rest
            end
          else
            match number text with
            | Some (n, rest') => Some (VInt n, rest')
            | None => None
            end
      end
  end
with elements (fuel : nat) (s : string) : option (value * string) :=
  match fuel with
  | O => None
  | S k =>
      match parse k s with
      | Some (v, rest) =>
          match skip_ws rest with
          | String "," rest' =>
              match elements k rest' with
              | Some (VList vs, rest'') => Some (VList (v :: vs), rest'')
              | _ => None
              end
          | String "]" rest' => Some (VList [v], rest')
          | _ => None
          end
      | None => None
      end
  end
with members (fuel : nat) (acc : list (string * value)) (s : string)
  : option (value * string) :=
  match fuel with
  | O => None
  | S k =>
      match skip_ws s with
      | String q rest =>
          if Ascii.eqb q (ascii_of_nat 34) then
            match chars rest with
            | Some (key, rest1) =>
                match skip_ws rest1 with
                | String ":" rest2 =>
                    match parse k rest2 with
                    | Some (v, rest3) =>
                        match skip_ws rest3 with
                        | String "," rest4 => members k (dict_set key v acc) rest4
                        | String "}" rest4 => Some (VDict (dict_set key v acc), rest4)
                        | _ => None
                        end
                    | None => None
                    end
                | _ => None
                end
            | None => None
            end
          else None
      | EmptyString => None
      end
  end.

Definition loads (s : string) : result value :=
  match parse (2 * String.length s + 2) s with
  | Some (v, rest) =>
      match skip_ws rest with
      | EmptyString => Ok v
      | _ => Raise JSONDecodeError
      end
  | None => Raise JSONDecodeError
  end.
End Json.

(** ** A concrete configuration and concrete environments *)

Definition example_cfg : Const :=
  {| DEFAULT_TIMEOUT := 5;
     CLIENT_ADDRESS := "miwifi.com";
     CLIENT_URL := fun ip => "http://" ++ ip ++ "/cgi-bin/luci";
     CLIENT_USERNAME := "admin";
     CLIENT_LOGIN_TYPE := VInt 2;
     CLIENT_NONCE_TYPE := VInt 0;
     CLIENT_PUBLIC_KEY := "a2ffa5c9be07488bbb04a3a47d3c5f6a";
     DOMAIN := "miwifi";
     NAME := "MiWifi" |}.

(** A router that gives the n-th reply of a script to the n-th request, and
    is unreachable once the script is over; the client is one that can be
    entered again and again, as the one Home Assistant shares. *)
Definition scripted (replies : list transport) : Env :=
  {| json_loads := Json.loads;
     aenter := fun _ => None;
     router := fun history _ => nth (List.length history) replies Failed;
     uuid_getnode := 0x0242ac110002%N;
     time_time := fun n => (1700000000 + Z.of_nat n)%Z;
     random_random := fun n => (Z.of_nat n * 37 mod 1000)%Z;
     repr := fun _ => "" |}.

(** The same router behind a plain [httpx.AsyncClient]: once left, the
    client is closed and entering it again raises [RuntimeError]. *)
Definition closing (replies : list transport) : Env :=
  {| json_loads := json_loads (scripted replies);
     aenter := fun n => match n with O => None | S _ => Some RuntimeError end;
     router := router (scripted replies);
     uuid_getnode := uuid_getnode (scripted replies);
     time_time := time_time (scripted replies);
     random_random := random_random (scripted replies);
     repr := repr (scripted replies) |}.

(** A router that gives one and the same answer to every request. *)
Definition steady (answer : transport) : Env :=
  {| json_loads := Json.loads;
     aenter := fun _ => None;
     router := fun _ _ => answer;
     uuid_getnode := uuid_getnode (scripted []);
     time_time := time_time (scripted []);
     random_random := random_random (scripted []);
     repr := repr (scripted []) |}.

(** The sweeps run here look up no inherited name. *)
Definition no_inherited : string -> option (attribute (LuciClient * World)) :=
  fun _ => None.

Definition reply (status : Z) (body : string) : transport :=
  Replied {| status_code := status; content := body |}.

(** [{"key": value}], the value already in JSON. *)
Definition json_object (key value : string) : string :=
  "{" ++ dq ++ key ++ dq ++ ": " ++ value ++ "}".

Definition json_string (s : string) : string := dq ++ s ++ dq.

Definition example_client : LuciClient :=
  __init__ example_cfg "192.168.31.1/" (Some "secret") 5.

Definition logged_in (token : string) : LuciClient :=
  with_token (VStr token) example_client.

Definition fresh : World := {| sent := []; draws := 0; entered := 0 |}.

Definition example_host : Host :=
  {| issue_tracker := "https://github.com/dmamontov/hass-miwifi/issues";
     quote_plus := fun s => s |}.

(** A client for the sweep whose state is the list of the methods called so
    far: [good] methods return, [bad] ones raise the given exception, any
    other name is no attribute. *)
Definition toy_client (good : list string) (bad : list (string * exn))
  : Client (list string) :=
  {| getattr := fun _ name =>
       if existsb (String.eqb name) good
       then Some (Method (fun s => (Ok tt, (s ++ [name])%list)))
       else match dict_get name bad with
            | Some e => Some (Method (fun s => (Raise e, (s ++ [name])%list)))
            | None => None
            end;
     ip := fun _ => Some "192.168.31.1" |}.

(** * Properties *)

(** ** Strings and dicts *)

Lemma append_assoc (a b c : string) : (a ++ b) ++ c = a ++ b ++ c.
Proof.
  induction a as [|x a IH]; simpl; [reflexivity|].
  now rewrite IH.
Qed.

Lemma append_empty_r (a : string) : a ++ "" = a.
Proof.
  induction a as [|x a IH]; simpl; [reflexivity|].
  now rewrite IH.
Qed.

Lemma dict_get_set_same {V : Type} (k : string) (v : V) (d : list (string * V)) :
  dict_get k (dict_set k v d) = Some v.
Proof.
  induction d as [|[k' v'] d IH]; simpl.
  - now rewrite String.eqb_refl.
  - destruct (String.eqb k' k) eqn:E; simpl; rewrite E; [reflexivity | exact IH].
Qed.

Lemma dict_set_fresh {V : Type} (k : string) (v : V) (d : list (string * V)) :
  ~ In k (map fst d) -> dict_set k v d = (d ++ [(k, v)])%list.
Proof.
  induction d as [|[k' v'] d IH]; simpl; intros Hk; [reflexivity|].
  destruct (String.eqb_spec k' k) as [->|_].
  - exfalso. apply Hk. now left.
  - rewrite IH; [reflexivity|]. intros Hin. apply Hk. now right.
Qed.

Lemma dict_set_keys {V : Type} (k : string) (v : V) (d : list (string * V)) :
  map fst (dict_set k v d)
  = if existsb (String.eqb k) (map fst d) then map fst d else (map fst d ++ [k])%list.
Proof.
  induction d as [|[k' v'] d IH]; simpl; [reflexivity|].
  rewrite (String.eqb_sym k k').
  destruct (String.eqb k' k) eqn:E; simpl; [reflexivity|].
  rewrite IH. now destruct (existsb (String.eqb k) (map fst d)).
Qed.

(** ** Credential hasher *)

Example sha1_abc : sha1 "abc" = "a9993e364706816aba3e25717850c26c9cd0d89d".
Proof. vm_compute. reflexivity. Qed.

Example sha1_empty : sha1 "" = "da39a3ee5e6b4b0d3255bfef95601890afd80709".
Proof. vm_compute. reflexivity. Qed.

(** A message of more than one block. *)
Example sha1_two_blocks :
  sha1 "abcdbcdecdefdefgefghfghighijhijkijkljklmklmnlmnomnopnopq"
  = "84983e441c3bd26ebaae4aa1f95129e5e54670f1".
Proof. vm_compute. reflexivity. Qed.

(** C8. For every nonce and every password, the credential hash is the
    SHA-1 hex digest of the nonce followed by the SHA-1 hex digest of the
    password followed by [CLIENT_PUBLIC_KEY]; it is the same whatever the
    client and the world it is computed in, and it leaves both as they
    were. The digest is the SHA-1 of FIPS 180: it meets the standard's
    vectors of one block and of two. *)
Theorem generate_password_hash_spec (cfg : Const) (nonce password : string) :
  (forall (c : LuciClient) (w : World),
      generate_password_hash cfg nonce (Some password) c w
      = (Ok (Hashlib.hexdigest
               (Hashlib.encode
                  (nonce ++ Hashlib.hexdigest
                              (Hashlib.encode (password ++ CLIENT_PUBLIC_KEY cfg))))),
         c, w))
  /\ Hashlib.hexdigest (Hashlib.encode "abc")
     = "a9993e364706816aba3e25717850c26c9cd0d89d"
  /\ Hashlib.hexdigest
       (Hashlib.encode "abcdbcdecdefdefgefghfghighijhijkijkljklmklmnlmnomnopnopq")
     = "84983e441c3bd26ebaae4aa1f95129e5e54670f1".
Proof.
  split; [|split].
  - intros c w. unfold generate_password_hash, ret, sha1. reflexivity.
  - vm_compute. reflexivity.
  - vm_compute. reflexivity.
Qed.

(** The hash of a login, against the value [hashlib] gives for the same
    nonce, password and key. *)
Lemma generate_password_hash_vector :
  generate_password_hash example_cfg "0_02:42:ac:11:00:02_1700000000_0"
                         (Some "secret") example_client fresh
  = (Ok "9194216febf3824185972d005d0303b9b3db0fa6", example_client, fresh).
Proof.
  rewrite (proj1 (generate_password_hash_spec
                    example_cfg "0_02:42:ac:11:00:02_1700000000_0" "secret")).
  vm_compute. reflexivity.
Defined.

(** The digest is forty lowercase hexadecimal digits whatever the key. *)
Lemma hex_of_bytes_length (bs : list Z) :
  String.length (Hashlib.hex_of_bytes bs) = (2 * List.length bs)%nat.
Proof.
  induction bs as [|b bs IH]; simpl; [reflexivity|].
  rewrite IH. lia.
Qed.

Lemma sha1_length (key : string) : String.length (sha1 key) = 40%nat.
Proof.
  unfold sha1, Hashlib.hexdigest. rewrite hex_of_bytes_length.
  unfold Hashlib.digest.
  destruct (fold_left Hashlib.compress _ Hashlib.initial) as [[[[h0 h1] h2] h3] h4].
  rewrite !length_app. unfold Hashlib.be_bytes. rewrite !length_map, !length_rev, !length_seq.
  reflexivity.
Qed.

(** ** Request dispatcher *)

Lemma stok_url (base token path : string) :
  base ++ "/" ++ (";stok=" ++ token ++ "/") ++ "api/" ++ path
  = base ++ "/;stok=" ++ token ++ "/api/" ++ path.
Proof.
  f_equal. simpl. do 7 f_equal. rewrite append_assoc. reflexivity.
Qed.

Ltac unfold_M :=
  unfold bind, self, set_token, lift, raise, ret, except_HTTPError,
    async_with_client, client_get, client_post, send.

(** Case analysis on the innermost scrutinee of the goal. *)
Ltac break_match :=
  match goal with
  | |- context [match ?x with _ => _ end] =>
      lazymatch x with
      | context [match _ with _ => _ end] => fail
      | _ => destruct x eqn:?; simpl
      end
  end.

(** Two worlds with the same past and one more request each: the same request. *)
Lemma sent_one_more (past : list Request) (req req' : Request) :
  (past ++ [req])%list = (past ++ [req'])%list -> req = req'.
Proof. intros H. apply app_inv_head in H. now injection H. Qed.

(** A world where a request was sent is not the world before. *)
Lemma sent_none (past : list Request) (req : Request) :
  past <> (past ++ [req])%list.
Proof.
  intros H. apply (f_equal (@List.length Request)) in H.
  rewrite length_app in H. simpl in H. lia.
Qed.

(** [get] in one piece: whether the client opens, the request sent, what is
    made of the answer, the client left as it was. *)
Lemma get_run (env : Env) (path : string) (use_stok : bool)
      (c : LuciClient) (w : World) :
  get env path use_stok c w
  = let req :=
      {| req_verb := GET;
         req_url :=
           if use_stok
           then _url c ++ "/;stok=" ++ py_str (repr env) (_token c) ++ "/api/" ++ path
           else _url c ++ "/api/" ++ path;
         req_data := [];
         req_timeout := _timeout c |} in
    match aenter env (entered w) with
    | Some HTTPError => (Raise LuciConnectionException, c, w)
    | Some e => (Raise e, c, w)
    | None =>
        (match router env (sent w) req with
         | Failed | Crashed HTTPError => Raise LuciConnectionException
         | Crashed e => Raise e
         | Replied response =>
             match json_loads env (content response) with
             | Raise HTTPError => Raise LuciConnectionException
             | Raise e => Raise e
             | Ok data =>
                 match py_contains "code" data with
                 | Raise e => Raise e
                 | Ok false => Raise LuciTokenException
                 | Ok true =>
                     match py_getitem data "code" with
                     | Raise e => Raise e
                     | Ok code =>
                         match py_gt0 code with
                         | Raise e => Raise e
                         | Ok true => Raise LuciTokenException
                         | Ok false => Ok data
                         end
                     end
                 end
             end
         end, c,
         {| sent := (sent w ++ [req])%list; draws := draws w;
            entered := S (entered w) |})
    end.
Proof.
  unfold get. unfold_M.
  replace (_url c ++ "/" ++ (if use_stok
                             then ";stok=" ++ py_str (repr env) (_token c) ++ "/"
                             else "") ++ "api/" ++ path)
    with (if use_stok
          then _url c ++ "/;stok=" ++ py_str (repr env) (_token c) ++ "/api/" ++ path
          else _url c ++ "/api/" ++ path)
    by (destruct use_stok; [now rewrite stok_url | reflexivity]).
  cbv zeta. repeat break_match; simpl in *; try discriminate; reflexivity.
Qed.

(** When a request was sent, the client had opened and the request is the
    one of [get_run]: what [get] makes of the router's answer to it. *)
Lemma get_answered (env : Env) (path : string) (use_stok : bool)
      (c : LuciClient) (w : World) (req : Request) :
  sent (snd (get env path use_stok c w)) = (sent w ++ [req])%list ->
  fst (get env path use_stok c w)
  = (match router env (sent w) req with
     | Failed | Crashed HTTPError => Raise LuciConnectionException
     | Crashed e => Raise e
     | Replied response =>
         match json_loads env (content response) with
         | Raise HTTPError => Raise LuciConnectionException
         | Raise e => Raise e
         | Ok data =>
             match py_contains "code" data with
             | Raise e => Raise e
             | Ok false => Raise LuciTokenException
             | Ok true =>
                 match py_getitem data "code" with
                 | Raise e => Raise e
                 | Ok code =>
                     match py_gt0 code with
                     | Raise e => Raise e
                     | Ok true => Raise LuciTokenException
                     | Ok false => Ok data
                     end
                 end
             end
         end
     end, c).
Proof.
  rewrite get_run. cbv zeta.
  destruct (aenter env (entered w)) as [e|].
  - intros Hsent. exfalso. apply (sent_none (sent w) req).
    destruct e; exact Hsent.
  - cbn [fst snd sent]. intros Hsent. apply sent_one_more in Hsent. now subst req.
Qed.

(** C5. For every path and every token, when the client opens, [get] sends
    its request to [{base}/;stok={token}/api/{path}] when [use_stok] is true
    (a [str] token as it is, the absent token as the text None, any other
    value as [format] writes it) and to [{base}/api/{path}], without the
    token, when [use_stok] is false. *)
Theorem get_request_url (env : Env) (path : string) (c : LuciClient) (w : World) :
  aenter env (entered w) = None ->
  (forall token : string,
      sent (snd (get env path true (with_token (VStr token) c) w))
      = (sent w ++
         [{| req_verb := GET;
             req_url := _url c ++ "/;stok=" ++ token ++ "/api/" ++ path;
             req_data := [];
             req_timeout := _timeout c |}])%list)
  /\ sent (snd (get env path true (with_token VNone c) w))
     = (sent w ++
        [{| req_verb := GET;
            req_url := _url c ++ "/;stok=None/api/" ++ path;
            req_data := [];
            req_timeout := _timeout c |}])%list
  /\ (forall token : value,
         sent (snd (get env path true (with_token token c) w))
         = (sent w ++
            [{| req_verb := GET;
                req_url := _url c ++ "/;stok=" ++ py_str (repr env) token
                                  ++ "/api/" ++ path;
                req_data := [];
                req_timeout := _timeout c |}])%list)
  /\ (forall token : value,
         sent (snd (get env path false (with_token token c) w))
         = (sent w ++
            [{| req_verb := GET;
                req_url := _url c ++ "/api/" ++ path;
                req_data := [];
                req_timeout := _timeout c |}])%list).
Proof.
  intros Henter. repeat split; intros; rewrite get_run; cbv zeta;
    rewrite Henter; reflexivity.
Qed.

Lemma get_request_url_witness :
  sent (snd (get (closing []) "misystem/status" true (logged_in "abc") fresh))
  = [{| req_verb := GET;
        req_url := "http://192.168.31.1/cgi-bin/luci/;stok=abc/api/misystem/status";
        req_data := [];
        req_timeout := 5 |}]
  /\ sent (snd (get (closing []) "misystem/topo_graph" false (logged_in "abc") fresh))
     = [{| req_verb := GET;
           req_url := "http://192.168.31.1/cgi-bin/luci/api/misystem/topo_graph";
           req_data := [];
           req_timeout := 5 |}].
Proof.
  split.
  - exact (proj1 (get_request_url (closing []) "misystem/status" example_client fresh
                                  eq_refl) "abc").
  - exact (proj2 (proj2 (proj2 (get_request_url (closing []) "misystem/topo_graph"
                                                example_client fresh eq_refl)))
                 (VStr "abc")).
Defined.

(** C6. A [get] with [use_stok] true made while no token is held, on a
    client that opens, sends its request with the text of the absent token,
    None, in the stok segment; and when the reply is an object without
    [code], or with a [code] above 0, the call fails with
    [LuciTokenException] all the same. *)
Theorem get_before_login (env : Env) (path : string) (c : LuciClient) (w : World)
        (response : Response) (items : list (string * value)) :
  _token c = VNone ->
  aenter env (entered w) = None ->
  router env (sent w)
         {| req_verb := GET;
            req_url := _url c ++ "/;stok=None/api/" ++ path;
            req_data := [];
            req_timeout := _timeout c |}
  = Replied response ->
  json_loads env (content response) = Ok (VDict items) ->
  (dict_get "code" items = None
   \/ exists code, dict_get "code" items = Some code /\ py_gt0 code = Ok true) ->
  get env path true c w
  = (Raise LuciTokenException, c,
     {| sent := (sent w ++
                 [{| req_verb := GET;
                     req_url := _url c ++ "/;stok=None/api/" ++ path;
                     req_data := [];
                     req_timeout := _timeout c |}])%list;
        draws := draws w;
        entered := S (entered w) |}).
Proof.
  intros Htoken Henter Hreply Hjson Hrejected.
  rewrite get_run, Htoken, Henter. cbv zeta. simpl in *.
  rewrite Hreply, Hjson. simpl. unfold dict_mem.
  destruct Hrejected as [Hnone | (code & Hsome & Hpos)].
  - now rewrite Hnone.
  - rewrite Hsome. simpl. now rewrite Hpos.
Qed.

(** C7, as the code has it. When the router answers the request of a [get]
    with a body that decodes to an object whose [code], if it has one, is a
    number: without [code], or with a [code] above 0, [get] fails with
    [LuciTokenException]; otherwise it returns the decoded object as it is. *)
Theorem get_classifies_reply (env : Env) (path : string) (use_stok : bool)
        (c : LuciClient) (w : World) (req : Request) (response : Response)
        (items : list (string * value)) :
  sent (snd (get env path use_stok c w)) = (sent w ++ [req])%list ->
  router env (sent w) req = Replied response ->
  json_loads env (content response) = Ok (VDict items) ->
  (forall code, dict_get "code" items = Some code -> is_number code = true) ->
  fst (get env path use_stok c w)
  = (match dict_get "code" items with
     | None => Raise LuciTokenException
     | Some code =>
         match py_gt0 code with
         | Ok true => Raise LuciTokenException
         | _ => Ok (VDict items)
         end
     end, c).
Proof.
  intros Hsent Hreply Hjson Hnumber.
  rewrite (get_answered env path use_stok c w req Hsent), Hreply, Hjson.
  simpl. unfold dict_mem.
  destruct (dict_get "code" items) as [code|]; simpl; [|reflexivity].
  specialize (Hnumber code eq_refl).
  destruct code; simpl in *; try discriminate; break_match; reflexivity.
Qed.

(** X14. A [code] that is no number: the comparison raises. *)
Lemma get_code_no_number (env : Env) (path : string) (use_stok : bool)
      (c : LuciClient) (w : World) (req : Request) (response : Response)
      (items : list (string * value)) (code : value) :
  sent (snd (get env path use_stok c w)) = (sent w ++ [req])%list ->
  router env (sent w) req = Replied response ->
  json_loads env (content response) = Ok (VDict items) ->
  dict_get "code" items = Some code ->
  is_number code = false ->
  fst (get env path use_stok c w) = (Raise TypeError, c).
Proof.
  intros Hsent Hreply Hjson Hcode Hnumber.
  rewrite (get_answered env path use_stok c w req Hsent), Hreply, Hjson.
  simpl. unfold dict_mem. rewrite Hcode. simpl.
  destruct code; simpl in *; try discriminate; reflexivity.
Qed.

(** A reply that decodes to an array is without [code] unless the text
    code is one of its items. *)
Lemma get_array_reply (env : Env) (path : string) (use_stok : bool)
      (c : LuciClient) (w : World) (req : Request) (response : Response) :
  sent (snd (get env path use_stok c w)) = (sent w ++ [req])%list ->
  router env (sent w) req = Replied response ->
  json_loads env (content response) = Ok (VList []) ->
  fst (get env path use_stok c w) = (Raise LuciTokenException, c).
Proof.
  intros Hsent Hreply Hjson.
  now rewrite (get_answered env path use_stok c w req Hsent), Hreply, Hjson.
Qed.

(** C3, as the code has it. When decoding the reply raises anything but an
    [HTTPError], [get] raises that very exception: a body that is not JSON
    ends in [JSONDecodeError], not in [LuciConnectionException]. *)
Theorem get_decoding_failure (env : Env) (path : string) (use_stok : bool)
        (c : LuciClient) (w : World) (req : Request) (response : Response)
        (e : exn) :
  sent (snd (get env path use_stok c w)) = (sent w ++ [req])%list ->
  router env (sent w) req = Replied response ->
  json_loads env (content response) = Raise e ->
  e <> HTTPError ->
  fst (get env path use_stok c w) = (Raise e, c).
Proof.
  intros Hsent Hreply Hjson He.
  rewrite (get_answered env path use_stok c w req Hsent), Hreply, Hjson.
  destruct e; try reflexivity. now contradiction He.
Qed.

(** X13. A transport failure is a [LuciConnectionException]. *)
Lemma get_transport_failure (env : Env) (path : string) (use_stok : bool)
      (c : LuciClient) (w : World) (req : Request) :
  sent (snd (get env path use_stok c w)) = (sent w ++ [req])%list ->
  router env (sent w) req = Failed ->
  fst (get env path use_stok c w) = (Raise LuciConnectionException, c).
Proof.
  intros Hsent Hfail.
  now rewrite (get_answered env path use_stok c w req Hsent), Hfail.
Qed.

(** ** Session manager *)

(** [login] in one piece, for a client that has a password: the nonce,
    whether the client opens, the one request, what is made of the answer. *)
Lemma login_run (cfg : Const) (env : Env) (c : LuciClient) (w : World)
      (password : string) :
  _password c = Some password ->
  login cfg env c w
  = let nonce :=
      py_str (repr env) (CLIENT_NONCE_TYPE cfg) ++ "_" ++ get_mac_address env
        ++ "_" ++ str_of_int (time_time env (draws w))
        ++ "_" ++ str_of_int (random_random env (draws w)) in
    let req :=
      {| req_verb := POST;
         req_url := _url c ++ "/api/xqsystem/login";
         req_data :=
           [("username", CLIENT_USERNAME cfg);
            ("logtype", py_str (repr env) (CLIENT_LOGIN_TYPE cfg));
            ("password", sha1 (nonce ++ sha1 (password ++ CLIENT_PUBLIC_KEY cfg)));
            ("nonce", nonce)];
         req_timeout := _timeout c |} in
    let w0 := {| sent := sent w; draws := S (draws w); entered := entered w |} in
    let w' := {| sent := (sent w ++ [req])%list; draws := S (draws w);
                 entered := S (entered w) |} in
    match aenter env (entered w) with
    | Some HTTPError => (Raise LuciConnectionException, c, w0)
    | Some e => (Raise e, c, w0)
    | None =>
        match router env (sent w) req with
        | Failed | Crashed HTTPError => (Raise LuciConnectionException, c, w')
        | Crashed e => (Raise e, c, w')
        | Replied response =>
            match json_loads env (content response) with
            | Raise HTTPError => (Raise LuciConnectionException, c, w')
            | Raise e => (Raise e, c, w')
            | Ok data =>
                if (status_code response =? 200)%Z then
                  match py_contains "token" data with
                  | Raise e => (Raise e, c, w')
                  | Ok false => (Raise LuciTokenException, c, w')
                  | Ok true =>
                      match py_getitem data "token" with
                      | Raise e => (Raise e, c, w')
                      | Ok token => (Ok data, with_token token c, w')
                      end
                  end
                else (Raise LuciTokenException, c, w')
            end
        end
    end.
Proof.
  intros Hpassword.
  unfold login, generate_nonce, generate_password_hash. unfold_M. simpl.
  rewrite Hpassword. simpl.
  repeat break_match; simpl in *; try discriminate; reflexivity.
Qed.

(** When a login sent a request, the client had opened: what [login] makes
    of the router's answer to that request. *)
Lemma login_answered (cfg : Const) (env : Env) (c : LuciClient) (w : World)
      (password : string) (req : Request) :
  _password c = Some password ->
  sent (snd (login cfg env c w)) = (sent w ++ [req])%list ->
  fst (login cfg env c w)
  = match router env (sent w) req with
    | Failed | Crashed HTTPError => (Raise LuciConnectionException, c)
    | Crashed e => (Raise e, c)
    | Replied response =>
        match json_loads env (content response) with
        | Raise HTTPError => (Raise LuciConnectionException, c)
        | Raise e => (Raise e, c)
        | Ok data =>
            if (status_code response =? 200)%Z then
              match py_contains "token" data with
              | Raise e => (Raise e, c)
              | Ok false => (Raise LuciTokenException, c)
              | Ok true =>
                  match py_getitem data "token" with
                  | Raise e => (Raise e, c)
                  | Ok token => (Ok data, with_token token c)
                  end
              end
            else (Raise LuciTokenException, c)
        end
    end.
Proof.
  intros Hpassword.
  rewrite (login_run cfg env c w password Hpassword). cbv zeta.
  destruct (aenter env (entered w)) as [e|].
  - intros Hsent. exfalso. apply (sent_none (sent w) req).
    destruct e; exact Hsent.
  - match goal with
    | |- context [router env (sent w) ?r] => set (REQ := r)
    end.
    intros Hsent.
    assert (Hreq : REQ = req).
    { apply (sent_one_more (sent w)). rewrite <- Hsent.
      repeat break_match; simpl in *; try discriminate; reflexivity. }
    rewrite <- Hreq.
    repeat break_match; simpl in *; try discriminate; reflexivity.
Qed.

(** A login with a password on a client that opens sends one request,
    whatever comes of it. *)
Lemma login_sends (cfg : Const) (env : Env) (c : LuciClient) (w : World)
      (password : string) :
  _password c = Some password ->
  aenter env (entered w) = None ->
  exists req,
    sent (snd (login cfg env c w)) = (sent w ++ [req])%list
    /\ req_verb req = POST
    /\ req_url req = _url c ++ "/api/xqsystem/login".
Proof.
  intros Hpassword Henter.
  rewrite (login_run cfg env c w password Hpassword). cbv zeta. rewrite Henter.
  match goal with
  | |- context [router env (sent w) ?r] => exists r
  end.
  split; [|split; reflexivity].
  repeat break_match; simpl in *; try discriminate; reflexivity.
Qed.

(** X6. Without a password no login is attempted: whatever the client and
    the router do, nothing is sent and the session is as before; on a client
    that opens, the hash cannot be computed and [login] raises [TypeError]. *)
Lemma login_without_password (cfg : Const) (env : Env) (c : LuciClient) (w : World) :
  _password c = None ->
  sent (snd (login cfg env c w)) = sent w
  /\ snd (fst (login cfg env c w)) = c
  /\ (aenter env (entered w) = None ->
      fst (login cfg env c w) = (Raise TypeError, c)).
Proof.
  intros Hpassword.
  unfold login, generate_nonce, generate_password_hash. unfold_M. simpl.
  rewrite Hpassword.
  destruct (aenter env (entered w)) as [[]|]; simpl; repeat split; discriminate.
Qed.

(** C4, as the code has it. When the router answers the request of a login
    with a body that decodes to an object: if the status is not 200, or the
    object has no [token], [login] fails with [LuciTokenException] and the
    client is as before; if the status is 200 and the object has a [token],
    [login] stores it, whatever token was held, and returns the decoded
    object. *)
Theorem login_outcome (cfg : Const) (env : Env) (c : LuciClient) (w : World)
        (password : string) (req : Request) (response : Response)
        (items : list (string * value)) :
  _password c = Some password ->
  sent (snd (login cfg env c w)) = (sent w ++ [req])%list ->
  router env (sent w) req = Replied response ->
  json_loads env (content response) = Ok (VDict items) ->
  fst (login cfg env c w)
  = if (status_code response =? 200)%Z
    then match dict_get "token" items with
         | Some token => (Ok (VDict items), with_token token c)
         | None => (Raise LuciTokenException, c)
         end
    else (Raise LuciTokenException, c).
Proof.
  intros Hpassword Hsent Hreply Hjson.
  rewrite (login_answered cfg env c w password req Hpassword Hsent), Hreply, Hjson.
  simpl. unfold dict_mem.
  destruct (status_code response =? 200)%Z; [|reflexivity].
  destruct (dict_get "token" items); reflexivity.
Qed.

(** X8. With a status other than 200 the decoded body is not even looked at. *)
Lemma login_status_not_200 (cfg : Const) (env : Env) (c : LuciClient) (w : World)
      (password : string) (req : Request) (response : Response) (data : value) :
  _password c = Some password ->
  sent (snd (login cfg env c w)) = (sent w ++ [req])%list ->
  router env (sent w) req = Replied response ->
  json_loads env (content response) = Ok data ->
  status_code response <> 200%Z ->
  fst (login cfg env c w) = (Raise LuciTokenException, c).
Proof.
  intros Hpassword Hsent Hreply Hjson Hstatus.
  rewrite (login_answered cfg env c w password req Hpassword Hsent), Hreply, Hjson.
  apply Z.eqb_neq in Hstatus. now rewrite Hstatus.
Qed.

(** X7. When the transport fails, [login] raises [LuciConnectionException]
    and the client is as before. *)
Lemma login_transport_failure (cfg : Const) (env : Env) (c : LuciClient) (w : World)
      (password : string) (req : Request) :
  _password c = Some password ->
  sent (snd (login cfg env c w)) = (sent w ++ [req])%list ->
  router env (sent w) req = Failed ->
  fst (login cfg env c w) = (Raise LuciConnectionException, c).
Proof.
  intros Hpassword Hsent Hfail.
  now rewrite (login_answered cfg env c w password req Hpassword Hsent), Hfail.
Qed.

(** C10. A login that raises, whatever it raises, leaves the client, and so
    the stored token, exactly as it was: the token is written on the last
    line only. *)
Theorem login_failure_keeps_token (cfg : Const) (env : Env) (c c' : LuciClient)
        (w w' : World) (e : exn) :
  login cfg env c w = (Raise e, c', w') ->
  _token c' = _token c /\ c' = c.
Proof.
  unfold login, generate_nonce, generate_password_hash. unfold_M. simpl.
  repeat break_match; intros H; inversion H; subst;
    repeat match goal with
           | H : (_, _) = (_, _) |- _ => inversion H; clear H; subst
           end;
    try discriminate; split; reflexivity.
Qed.

(** [logout] in one piece, for a client that holds a token. *)
Lemma logout_run (env : Env) (c : LuciClient) (w : World) :
  _token c <> VNone ->
  logout env c w
  = let req :=
      {| req_verb := GET;
         req_url := _url c ++ "/;stok=" ++ py_str (repr env) (_token c) ++ "/web/logout";
         req_data := [];
         req_timeout := _timeout c |} in
    match aenter env (entered w) with
    | Some HTTPError => (Ok tt, c, w)
    | Some e => (Raise e, c, w)
    | None =>
        (match router env (sent w) req with
         | Replied _ | Failed | Crashed HTTPError => Ok tt
         | Crashed e => Raise e
         end, c,
         {| sent := (sent w ++ [req])%list; draws := draws w;
            entered := S (entered w) |})
    end.
Proof.
  intros Htoken. unfold logout. unfold_M. cbv zeta.
  destruct (_token c) eqn:E; try (now contradiction Htoken);
    destruct (aenter env (entered w)) as [[]|]; try reflexivity;
    destruct (router env (sent w) _) as [response| |[]]; reflexivity.
Qed.


(** What [logout] raises: on a client that does not open, what entering it
    raised; on a client that opens, what the call raised; unless that is an
    [HTTPError]. The session is as before. *)
Lemma logout_raises (env : Env) (c : LuciClient) (w : World) (e : exn) :
  _token c <> VNone ->
  e <> HTTPError ->
  (aenter env (entered w) = Some e -> logout env c w = (Raise e, c, w))
  /\ (aenter env (entered w) = None ->
      (forall req, router env (sent w) req = Crashed e) ->
      fst (logout env c w) = (Raise e, c)).
Proof.
  intros Htoken He. rewrite (logout_run env c w Htoken). cbv zeta. split.
  - intros ->. destruct e; try reflexivity. now contradiction He.
  - intros -> Hcall. rewrite Hcall.
    destruct e; try reflexivity. now contradiction He.
Qed.

(** X9. Without a token [logout] sends nothing and returns at once; with a
    token, on a client that opens, it sends one request, to
    [{base}/;stok={token}/web/logout], whatever the transport then does; on
    a client that does not open it sends nothing. *)
Lemma logout_request (env : Env) (c : LuciClient) (w : World) :
  (_token c = VNone -> logout env c w = (Ok tt, c, w))
  /\ (_token c <> VNone ->
      aenter env (entered w) = None ->
      sent (snd (logout env c w))
      = (sent w ++
         [{| req_verb := GET;
             req_url := _url c ++ "/;stok=" ++ py_str (repr env) (_token c)
                               ++ "/web/logout";
             req_data := [];
             req_timeout := _timeout c |}])%list)
  /\ (_token c <> VNone ->
      aenter env (entered w) <> None ->
      sent (snd (logout env c w)) = sent w).
Proof.
  split; [|split].
  - intros E. unfold logout. unfold_M. now rewrite E.
  - intros Htoken Henter. now rewrite (logout_run env c w Htoken), Henter.
  - intros Htoken Henter. rewrite (logout_run env c w Htoken). cbv zeta.
    destruct (aenter env (entered w)) as [[]|]; try reflexivity.
    now contradiction Henter.
Qed.

(** ** Capability sweep *)

(** One step of the loop on an entry whose method the client has: a
    sentinel entry has its sentinel recorded under its code, with the state
    untouched and no call made; any other entry has its method called, and
    a return records green, a [LuciError] records red. *)
Lemma probe_records {S : Type} (client : Client S) (code method : string)
        (data : list (string * string)) (s : S) :
  (is_sentinel method = true ->
   probe client (code, method) data s = (Ok (dict_set code method data), s, []))
  /\ (forall call,
         is_sentinel method = false ->
         getattr client s method = Some (Method call) ->
         match call s with
         | (Ok _, s') =>
             probe client (code, method) data s
             = (Ok (dict_set code "🟢" data), s',
                [Started method; Resolved method (Ok tt)])
         | (Raise e, s') =>
             isinstance_LuciError e = true ->
             probe client (code, method) data s
             = (Ok (dict_set code "🔴" data), s',
                [Started method; Resolved method (Raise e)])
         end).
Proof.
  split.
  - intros Hsentinel. unfold probe. now rewrite Hsentinel.
  - intros call Hsentinel Hattr. unfold probe. rewrite Hsentinel, Hattr.
    destruct (call s) as [[[]|e] s'].
    + reflexivity.
    + intros He. now rewrite He.
Qed.

(** The other ways of an entry: a name the client lacks is an
    [AttributeError], and an exception that is no [LuciError] goes through. *)
Lemma probe_missing_method {S : Type} (client : Client S) (code method : string)
      (data : list (string * string)) (s : S) :
  is_sentinel method = false ->
  getattr client s method = None ->
  probe client (code, method) data s = (Raise AttributeError, s, []).
Proof. intros Hsentinel Hattr. unfold probe. now rewrite Hsentinel, Hattr. Qed.

Lemma probe_foreign_exception {S : Type} (client : Client S) (code method : string)
      (data : list (string * string)) (s s' : S) (call : S -> result unit * S) (e : exn) :
  is_sentinel method = false ->
  getattr client s method = Some (Method call) ->
  call s = (Raise e, s') ->
  isinstance_LuciError e = false ->
  probe client (code, method) data s
  = (Raise e, s', [Started method; Resolved method (Raise e)]).
Proof.
  intros Hsentinel Hattr Hcall He. unfold probe.
  now rewrite Hsentinel, Hattr, Hcall, He.
Qed.

(** One step of a well-behaved sweep. *)
Lemma probe_well_behaved {S : Type} (client : Client S) (code method : string)
      (data : list (string * string)) (s : S) :
  (is_sentinel method = false ->
   exists call,
     getattr client s method = Some (Method call)
     /\ match fst (call s) with
        | Ok _ => True
        | Raise e => isinstance_LuciError e = true
        end) ->
  exists v s' trace,
    probe client (code, method) data s = (Ok (dict_set code v data), s', trace)
    /\ recorded (code, method) (code, v)
    /\ started trace = (if is_sentinel method then [] else [method])
    /\ (trace = [] \/ exists r, trace = [Started method; Resolved method r]).
Proof.
  intros Hcall. unfold probe, recorded. simpl.
  destruct (is_sentinel method) eqn:Hsentinel.
  - exists method, s, []. auto.
  - destruct (Hcall eq_refl) as (call & -> & Hresolves).
    destruct (call s) as [[[]|e] s']; simpl in Hresolves.
    + exists "🟢", s', [Started method; Resolved method (Ok tt)].
      repeat split; eauto.
    + rewrite Hresolves.
      exists "🔴", s', [Started method; Resolved method (Raise e)].
      repeat split; eauto.
Qed.

Lemma started_app (t t' : list event) :
  started (t ++ t') = (started t ++ started t')%list.
Proof. unfold started. apply flat_map_app. Qed.

Lemma sequential_step (t t' : list event) (method : string) :
  (t = [] \/ exists r, t = [Started method; Resolved method r]) ->
  sequential t' -> sequential (t ++ t').
Proof.
  intros [-> | [r ->]] Ht'; simpl; auto.
Qed.

Lemma well_behaved_tail {S : Type} (client : Client S) (entry : string * string)
      (catalog : list (string * string)) :
  well_behaved client (entry :: catalog) -> well_behaved client catalog.
Proof.
  unfold well_behaved. intros H code method s Hin. apply (H code). now right.
Qed.

Lemma probe_all_cons {S : Type} (client : Client S) (entry : string * string)
      (rest data : list (string * string)) (s : S) :
  probe_all client (entry :: rest) data s
  = match probe client entry data s with
    | (Ok data', s', trace) =>
        let '(r, s'', trace') := probe_all client rest data' s' in
        (r, s'', (trace ++ trace')%list)
    | (Raise e, s', trace) => (Raise e, s', trace)
    end.
Proof. reflexivity. Qed.

(** A well-behaved sweep, from any [data] it starts with. *)
Lemma probe_all_well_behaved {S : Type} (client : Client S)
      (catalog : list (string * string)) :
  well_behaved client catalog ->
  forall (data0 : list (string * string)) (s : S),
  exists data s' trace,
    probe_all client catalog data0 s = (Ok data, s', trace)
    /\ started trace = map snd (probeable catalog)
    /\ sequential trace
    /\ map fst data
       = fold_left (fun seen k =>
                      if existsb (String.eqb k) seen then seen else (seen ++ [k])%list)
                   (map fst catalog) (map fst data0)
    /\ (NoDup (map fst data0 ++ map fst catalog) ->
        exists items, data = (data0 ++ items)%list /\ Forall2 recorded catalog items).
Proof.
  induction catalog as [|[code method] rest IH]; intros Hwb data0 s.
  - exists data0, s, []. simpl. repeat split; auto.
    intros _. exists []. rewrite app_nil_r. auto.
  - destruct (probe_well_behaved client code method data0 s)
      as (v & s1 & t & Hprobe & Hrec & Hstarted & Hshape).
    { intros Hsentinel. apply (Hwb code method s); [now left | exact Hsentinel]. }
    destruct (IH (well_behaved_tail _ _ _ Hwb) (dict_set code v data0) s1)
      as (data & s' & t' & Hall & Hstarted' & Hseq & Hkeys & Hitems).
    exists data, s', (t ++ t')%list.
    rewrite probe_all_cons, Hprobe, Hall.
    split; [reflexivity|]. split; [|split; [|split]].
    + rewrite started_app, Hstarted, Hstarted'. unfold probeable. simpl.
      now destruct (is_sentinel method).
    + eapply sequential_step; eauto.
    + rewrite Hkeys, dict_set_keys. reflexivity.
    + simpl. intros Hnodup.
      assert (Hfresh : ~ In code (map fst data0)).
      { intros Hin. apply NoDup_remove_2 in Hnodup. apply Hnodup.
        apply in_or_app. now left. }
      rewrite (dict_set_fresh code v data0 Hfresh) in Hitems.
      destruct Hitems as (items & -> & Hforall).
      { rewrite map_app. simpl. rewrite <- app_assoc. exact Hnodup. }
      exists ((code, v) :: items). rewrite <- app_assoc. simpl.
      split; [reflexivity|]. constructor; assumption.
Qed.

Lemma first_occurrences_nodup_from (keys seen : list string) :
  NoDup (seen ++ keys) ->
  fold_left (fun seen k =>
               if existsb (String.eqb k) seen then seen else (seen ++ [k])%list)
            keys seen
  = (seen ++ keys)%list.
Proof.
  revert seen. induction keys as [|k keys IH]; intros seen Hnodup; simpl.
  - now rewrite app_nil_r.
  - assert (Hfresh : existsb (String.eqb k) seen = false).
    { destruct (existsb (String.eqb k) seen) eqn:E; [|reflexivity].
      apply existsb_exists in E. destruct E as (x & Hin & Heq).
      apply String.eqb_eq in Heq. subst x.
      apply NoDup_remove_2 in Hnodup. exfalso. apply Hnodup.
      apply in_or_app. now left. }
    rewrite Hfresh, IH.
    + now rewrite <- app_assoc.
    + now rewrite <- app_assoc.
Qed.

Lemma first_occurrences_nodup (keys : list string) :
  NoDup keys -> first_occurrences keys = keys.
Proof. intros H. unfold first_occurrences. now rewrite first_occurrences_nodup_from. Qed.

(** The check list is its heading and then one line for each item of [data]. *)
Lemma check_list_lines (data : list (string * string)) :
  check_list data
  = "Check list:" ++ String.concat "" (map (fun line => nl ++ line) (report_lines data)).
Proof.
  unfold check_list. generalize "Check list:" as heading.
  induction data as [|[k v] data IH]; intros heading; simpl.
  - now rewrite append_empty_r.
  - rewrite IH. destruct data as [|item data]; simpl.
    + now rewrite !append_empty_r.
    + rewrite !append_assoc. simpl. rewrite !append_assoc. reflexivity.
Qed.

Lemma subsequence_nil (ys : list string) : subsequence [] ys.
Proof. destruct ys; simpl; auto. Qed.

(** X19. Whatever the client and the catalog, and whether the sweep ends or
    raises: the calls are made one after another, each for a probeable
    entry, in the order of the catalog, none twice for one entry. *)
Lemma probe_all_calls_in_order {S : Type} (client : Client S)
      (catalog : list (string * string)) :
  forall (data0 : list (string * string)) (s : S),
    sequential (snd (probe_all client catalog data0 s))
    /\ subsequence (started (snd (probe_all client catalog data0 s)))
                   (map snd (probeable catalog)).
Proof.
  induction catalog as [|[code method] rest IH]; intros data0 s.
  - simpl. auto.
  - rewrite probe_all_cons. unfold probe, probeable. simpl filter.
    destruct (is_sentinel method) eqn:Hsentinel; simpl negb; cbv iota.
    + specialize (IH (dict_set code method data0) s).
      destruct (probe_all client rest (dict_set code method data0) s) as [[r s'] t].
      exact IH.
    + destruct (getattr client s method) as [[call|[|]]|].
      * destruct (call s) as [[[]|e] s1].
        -- specialize (IH (dict_set code "🟢" data0) s1).
           destruct (probe_all client rest (dict_set code "🟢" data0) s1) as [[r s'] t].
           simpl in *. destruct IH as [Hseq Hsub]. auto.
        -- destruct (isinstance_LuciError e).
           ++ specialize (IH (dict_set code "🔴" data0) s1).
              destruct (probe_all client rest (dict_set code "🔴" data0) s1) as [[r s'] t].
              simpl in *. destruct IH as [Hseq Hsub]. auto.
           ++ simpl. split; [auto|]. left. split; [reflexivity|]. apply subsequence_nil.
      * simpl. auto.
      * specialize (IH data0 s).
        destruct (probe_all client rest data0 s) as [[r s'] t].
        simpl in *. destruct IH as [Hseq Hsub]. split; [exact Hseq|].
        destruct (started t); [exact I | now right].
      * simpl. auto.
Qed.

(** The sweep on a client made for it. When every probeable entry names a
    method of the client whose call returns or raises a [LuciError], and the
    client has an [ip]: the sweep ends with its notification; it makes one
    call for each probeable entry, in the order of the catalog, each call
    over before the next begins; the check list has one line for each code,
    at the place of the first entry with that code; so, when no two entries
    share a code, one line for each entry, in the order of the catalog. *)
Lemma self_check_report (cfg : Const) (host : Host) {S : Type} (client : Client S)
        (catalog : list (string * string)) (model address : string) (s : S) :
  well_behaved client catalog ->
  (forall s', ip client s' = Some address) ->
  exists data s' trace,
    self_check cfg host client catalog model s
    = (Ok (notification cfg host address model data), s', trace)
    /\ started trace = map snd (probeable catalog)
    /\ sequential trace
    /\ check_list data
       = "Check list:"
           ++ String.concat "" (map (fun line => nl ++ line) (report_lines data))
    /\ map fst data = first_occurrences (map fst catalog)
    /\ (NoDup (map fst catalog) ->
        Forall2 recorded catalog data
        /\ List.length (report_lines data) = List.length catalog).
Proof.
  intros Hwb Hip.
  destruct (probe_all_well_behaved client catalog Hwb [] s)
    as (data & s' & trace & Hall & Hstarted & Hseq & Hkeys & Hitems).
  exists data, s', trace. unfold self_check. rewrite Hall, Hip.
  split; [reflexivity|]. split; [exact Hstarted|]. split; [exact Hseq|].
  split; [apply check_list_lines|]. split; [exact Hkeys|].
  intros Hnodup. destruct (Hitems Hnodup) as (items & -> & Hforall). simpl.
  split; [exact Hforall|].
  unfold report_lines. rewrite length_map.
  symmetry. eapply Forall2_length. exact Hforall.
Qed.

(** ** The shipped catalog on the shipped client *)

Lemma LuciClient_has_no_rom_update (cfg : Const) (env : Env)
      (inherited : string -> option (attribute (LuciClient * World)))
      (s : LuciClient * World) :
  LuciClient_getattr cfg env inherited s "rom_update" = None.
Proof. reflexivity. Qed.

(** X23. The class of luci.py defines no [ip] either: on such a client no sweep
    gets as far as its notification. *)
Lemma LuciClient_object_never_reports (cfg : Const) (env : Env)
      (inherited : string -> option (attribute (LuciClient * World))) (host : Host)
      (catalog : list (string * string)) (model : string) (s : LuciClient * World)
      (report : string * string) :
  fst (fst (self_check cfg host (LuciClient_object cfg env inherited) catalog model s))
  <> Ok report.
Proof.
  unfold self_check.
  destruct (probe_all (LuciClient_object cfg env inherited) catalog [] s)
    as [[[data|e] s'] trace];
    simpl; discriminate.
Qed.

(** With a router that accepts every call and a client that opens every
    time, the sweep of the shipped catalog calls [status], [mode] and
    [topo_graph], and then fails on [rom_update], a name the class of luci.py
    does not define. *)
Example async_self_check_shipped :
  let sweep :=
    async_self_check example_cfg example_host
      (LuciClient_object example_cfg
         (scripted [reply 200 (json_object "code" "0");
                    reply 200 (json_object "code" "0");
                    reply 200 (json_object "code" "0")])
         no_inherited)
      "R3600" (logged_in "abc", fresh) in
  fst (fst sweep) = Raise AttributeError
  /\ started (snd sweep) = ["status"; "mode"; "topo_graph"].
Proof. vm_compute. split; reflexivity. Qed.

(** With a client that opens once only, the second call of the sweep ends
    it: entering the closed client raises [RuntimeError], no [LuciError]. *)
Example async_self_check_closed_client :
  let sweep :=
    async_self_check example_cfg example_host
      (LuciClient_object example_cfg
         (closing [reply 200 (json_object "code" "0")]) no_inherited)
      "R3600" (logged_in "abc", fresh) in
  fst (fst sweep) = Raise RuntimeError
  /\ started (snd sweep) = ["status"; "mode"]
  /\ List.length (sent (snd (snd (fst sweep)))) = 1%nat.
Proof. vm_compute. repeat split; reflexivity. Qed.

(** A reply that is not JSON to one probe ends the whole sweep. *)
Example self_check_malformed_reply :
  let sweep :=
    self_check example_cfg example_host
      (LuciClient_object example_cfg (scripted [reply 200 "<html>"]) no_inherited)
      [("misystem/status", "status"); ("xqnetwork/mode", "mode")]
      "R3600" (logged_in "abc", fresh) in
  fst (fst sweep) = Raise JSONDecodeError
  /\ started (snd sweep) = ["status"].
Proof. vm_compute. split; reflexivity. Qed.

(** ** The theorems at concrete inputs *)

(** A fresh client (no token) asks for the status; the router rejects with
    code 401. *)
Lemma get_before_login_witness :
  _token example_client = VNone
  /\ get (scripted [reply 200 (json_object "code" "401")]) "misystem/status" true
         example_client fresh
     = (Raise LuciTokenException, example_client,
        {| sent :=
             [{| req_verb := GET;
                 req_url :=
                   "http://192.168.31.1/cgi-bin/luci/;stok=None/api/misystem/status";
                 req_data := [];
                 req_timeout := 5 |}];
           draws := 0;
           entered := 1 |}).
Proof.
  split; [reflexivity|].
  apply (get_before_login (scripted [reply 200 (json_object "code" "401")])
           "misystem/status" example_client fresh
           {| status_code := 200; content := json_object "code" "401" |}
           [("code", VInt 401)]).
  - reflexivity.
  - reflexivity.
  - reflexivity.
  - vm_compute. reflexivity.
  - right. exists (VInt 401). split; reflexivity.
Defined.

(** The router accepts: the decoded object comes back as it is. *)
Lemma get_classifies_reply_witness :
  fst (get (scripted [reply 200 (json_object "code" "0")]) "misystem/status" true
           (logged_in "abc") fresh)
  = (Ok (VDict [("code", VInt 0)]), logged_in "abc").
Proof.
  apply (get_classifies_reply (scripted [reply 200 (json_object "code" "0")])
           "misystem/status" true (logged_in "abc") fresh
           {| req_verb := GET;
              req_url := "http://192.168.31.1/cgi-bin/luci/;stok=abc/api/misystem/status";
              req_data := [];
              req_timeout := 5 |}
           {| status_code := 200; content := json_object "code" "0" |}
           [("code", VInt 0)]).
  - vm_compute. reflexivity.
  - reflexivity.
  - vm_compute. reflexivity.
  - intros code Hcode. injection Hcode as <-. reflexivity.
Defined.

(** C7 as the specification words it fails here: the reply decodes, it has
    a [code], the [code] is not above 0, and [get] neither returns the
    decoded body nor fails with [LuciTokenException]. *)
Lemma get_code_not_a_number :
  json_loads (scripted [reply 200 (json_object "code" (json_string "0"))])
             (json_object "code" (json_string "0"))
  = Ok (VDict [("code", VStr "0")])
  /\ py_contains "code" (VDict [("code", VStr "0")]) = Ok true
  /\ py_gt0 (VStr "0") <> Ok true
  /\ fst (get (scripted [reply 200 (json_object "code" (json_string "0"))])
              "misystem/status" true (logged_in "abc") fresh)
     = (Raise TypeError, logged_in "abc").
Proof.
  split; [vm_compute; reflexivity|].
  split; [reflexivity|].
  split; [discriminate|].
  vm_compute. reflexivity.
Qed.

(** The router answers a page that is not JSON. *)
Lemma get_decoding_failure_witness :
  json_loads (scripted [reply 200 "<html>"]) "<html>" = Raise JSONDecodeError
  /\ fst (get (scripted [reply 200 "<html>"]) "misystem/status" true
              (logged_in "abc") fresh)
     = (Raise JSONDecodeError, logged_in "abc").
Proof.
  split; [vm_compute; reflexivity|].
  apply (get_decoding_failure (scripted [reply 200 "<html>"]) "misystem/status" true
           (logged_in "abc") fresh
           {| req_verb := GET;
              req_url := "http://192.168.31.1/cgi-bin/luci/;stok=abc/api/misystem/status";
              req_data := [];
              req_timeout := 5 |}
           {| status_code := 200; content := "<html>" |}
           JSONDecodeError).
  - vm_compute. reflexivity.
  - reflexivity.
  - vm_compute. reflexivity.
  - discriminate.
Defined.

(** The same body in answer to a login. *)
Example login_decoding_failure :
  fst (login example_cfg (scripted [reply 200 "<html>"]) example_client fresh)
  = (Raise JSONDecodeError, example_client).
Proof. vm_compute. reflexivity. Qed.

(** The request of a login. *)
Example login_request_sent :
  sent (snd (login example_cfg (scripted []) example_client fresh))
  = [{| req_verb := POST;
        req_url := "http://192.168.31.1/cgi-bin/luci/api/xqsystem/login";
        req_data :=
          [("username", "admin"); ("logtype", "2");
           ("password", "9194216febf3824185972d005d0303b9b3db0fa6");
           ("nonce", "0_02:42:ac:11:00:02_1700000000_0")];
        req_timeout := 5 |}].
Proof. vm_compute. reflexivity. Qed.

(** A login that succeeds over a token held before. *)
Lemma login_outcome_witness :
  fst (login example_cfg
             (scripted [reply 200 (json_object "token" (json_string "new"))])
             (logged_in "old") fresh)
  = (Ok (VDict [("token", VStr "new")]), logged_in "new").
Proof.
  apply (login_outcome example_cfg
           (scripted [reply 200 (json_object "token" (json_string "new"))])
           (logged_in "old") fresh "secret"
           {| req_verb := POST;
              req_url := "http://192.168.31.1/cgi-bin/luci/api/xqsystem/login";
              req_data :=
                [("username", "admin"); ("logtype", "2");
                 ("password", "9194216febf3824185972d005d0303b9b3db0fa6");
                 ("nonce", "0_02:42:ac:11:00:02_1700000000_0")];
              req_timeout := 5 |}
           {| status_code := 200;
              content := json_object "token" (json_string "new") |}
           [("token", VStr "new")]).
  - reflexivity.
  - vm_compute. reflexivity.
  - reflexivity.
  - vm_compute. reflexivity.
Defined.

(** C4 as the specification words it fails here: 201 is a success status
    and the body has a token, yet [login] fails and stores nothing. *)
Lemma login_status_201_rejected :
  (200 <= 201 < 300)%Z
  /\ json_loads (scripted [reply 201 (json_object "token" (json_string "abc"))])
                (json_object "token" (json_string "abc"))
     = Ok (VDict [("token", VStr "abc")])
  /\ fst (login example_cfg
                (scripted [reply 201 (json_object "token" (json_string "abc"))])
                example_client fresh)
     = (Raise LuciTokenException, example_client)
  /\ _token example_client = VNone.
Proof.
  split; [lia|].
  split; [vm_compute; reflexivity|].
  split; [vm_compute; reflexivity | reflexivity].
Qed.

(** An unreachable router: the login fails and the token held stays. *)
Lemma login_failure_keeps_token_witness :
  fst (fst (login example_cfg (scripted []) (logged_in "abc") fresh))
  = Raise LuciConnectionException
  /\ _token (snd (fst (login example_cfg (scripted []) (logged_in "abc") fresh)))
     = VStr "abc".
Proof.
  split; [vm_compute; reflexivity|].
  refine (proj1 (login_failure_keeps_token example_cfg (scripted []) (logged_in "abc")
                   (snd (fst (login example_cfg (scripted []) (logged_in "abc") fresh)))
                   fresh
                   (snd (login example_cfg (scripted []) (logged_in "abc") fresh))
                   LuciConnectionException _)).
  vm_compute. reflexivity.
Defined.



(** The request of a [logout], and none on a closed client. *)
Lemma logout_request_witness :
  sent (snd (logout (closing []) (logged_in "abc") fresh))
  = [{| req_verb := GET;
        req_url := "http://192.168.31.1/cgi-bin/luci/;stok=abc/web/logout";
        req_data := [];
        req_timeout := 5 |}]
  /\ sent (snd (logout (closing []) (logged_in "abc")
                       {| sent := []; draws := 0; entered := 1 |}))
     = [].
Proof.
  split.
  - refine (proj1 (proj2 (logout_request (closing []) (logged_in "abc") fresh)) _ eq_refl).
    discriminate.
  - refine (proj2 (proj2 (logout_request (closing []) (logged_in "abc")
                                         {| sent := []; draws := 0; entered := 1 |}))
                  _ _); discriminate.
Defined.

(** Nor is it cleared when the router acknowledges. *)
Example logout_acknowledged :
  fst (logout (scripted [reply 200 "ok"]) (logged_in "abc") fresh)
  = (Ok tt, logged_in "abc").
Proof. vm_compute. reflexivity. Qed.

(** The catalog of the specification's example: one probeable entry, one
    known bad, one mutating. *)
Lemma probe_records_witness :
  probe (toy_client ["status"] []) ("xqsystem/reboot", "⚪") [] []
  = (Ok [("xqsystem/reboot", "⚪")], [], [])
  /\ probe (toy_client ["status"] []) ("misystem/status", "status") [] []
     = (Ok [("misystem/status", "🟢")], ["status"],
        [Started "status"; Resolved "status" (Ok tt)])
  /\ probe (toy_client [] [("status", LuciConnectionException)])
           ("misystem/status", "status") [] []
     = (Ok [("misystem/status", "🔴")], ["status"],
        [Started "status"; Resolved "status" (Raise LuciConnectionException)]).
Proof.
  split; [|split].
  - exact (proj1 (probe_records (toy_client ["status"] []) "xqsystem/reboot" "⚪" [] [])
                 eq_refl).
  - exact (proj2 (probe_records (toy_client ["status"] []) "misystem/status" "status"
                                [] [])
                 (fun s => (Ok tt, (s ++ ["status"])%list)) eq_refl eq_refl).
  - exact (proj2 (probe_records (toy_client [] [("status", LuciConnectionException)])
                                "misystem/status" "status" [] [])
                 (fun s => (Raise LuciConnectionException, (s ++ ["status"])%list))
                 eq_refl eq_refl eq_refl).
Defined.

Lemma well_behaved_example :
  well_behaved (toy_client ["p1"] [])
               [("path/p1", "p1"); ("path/p2", "🔴"); ("path/p3", "⚪")].
Proof.
  intros code method s Hin Hsentinel.
  destruct Hin as [H | [H | [H | []]]]; inversion H; subst; try discriminate Hsentinel.
  exists (fun s => (Ok tt, (s ++ ["p1"])%list)). split; [reflexivity | exact I].
Defined.

Lemma self_check_report_witness :
  exists data s' trace,
    self_check example_cfg example_host (toy_client ["p1"] [])
               [("path/p1", "p1"); ("path/p2", "🔴"); ("path/p3", "⚪")] "R3600" []
    = (Ok (notification example_cfg example_host "192.168.31.1" "R3600" data), s', trace)
    /\ started trace = ["p1"]
    /\ sequential trace
    /\ map fst data = ["path/p1"; "path/p2"; "path/p3"].
Proof.
  destruct (self_check_report example_cfg example_host (toy_client ["p1"] [])
              [("path/p1", "p1"); ("path/p2", "🔴"); ("path/p3", "⚪")]
              "R3600" "192.168.31.1" [] well_behaved_example (fun _ => eq_refl))
    as (data & s' & trace & Hrun & Hstarted & Hseq & _ & Hkeys & _).
  exists data, s', trace. repeat split; assumption.
Defined.

(** The run of that sweep. *)
Example self_check_example :
  self_check example_cfg example_host (toy_client ["p1"] [])
             [("path/p1", "p1"); ("path/p2", "🔴"); ("path/p3", "⚪")] "R3600" []
  = (Ok (notification example_cfg example_host "192.168.31.1" "R3600"
                      [("path/p1", "🟢"); ("path/p2", "🔴"); ("path/p3", "⚪")]),
     ["p1"], [Started "p1"; Resolved "p1" (Ok tt)]).
Proof. vm_compute. reflexivity. Qed.

(** The check list is keyed by the code: two entries with one code leave
    one line. The shipped catalog has no such entries. *)
Lemma self_check_duplicate_code :
  self_check example_cfg example_host (toy_client [] [])
             [("xqsystem/login", "🟢"); ("xqsystem/login", "⚪")] "R3600" []
  = (Ok (notification example_cfg example_host "192.168.31.1" "R3600"
                      [("xqsystem/login", "⚪")]), [], [])
  /\ report_lines [("xqsystem/login", "⚪")] = [" * xqsystem/login: ⚪"]
  /\ List.length (report_lines [("xqsystem/login", "⚪")])
     <> List.length [("xqsystem/login", "🟢"); ("xqsystem/login", "⚪")].
Proof.
  split; [vm_compute; reflexivity|].
  split; [reflexivity | discriminate].
Qed.

Example shipped_codes_distinct : NoDup (map fst SELF_CHECK_METHODS).
Proof.
  unfold SELF_CHECK_METHODS. simpl map.
  repeat (constructor; [simpl; intuition discriminate|]). constructor.
Qed.

(** * Further properties of the client *)

(** ** Strings *)

Lemma length_append (a b : string) :
  String.length (a ++ b) = (String.length a + String.length b)%nat.
Proof.
  induction a as [|x a IH]; simpl; [reflexivity|].
  now rewrite IH.
Qed.

Lemma append_inv_head (a x y : string) : a ++ x = a ++ y -> x = y.
Proof.
  induction a as [|c a IH]; simpl; intros H; [exact H|].
  injection H as H. now apply IH.
Qed.

Lemma substring_length (s : string) :
  forall n m, (n + m <= String.length s)%nat -> String.length (String.substring n m s) = m.
Proof.
  induction s as [|c s IH]; intros n m H; simpl in H.
  - assert (n = 0%nat) by lia. assert (m = 0%nat) by lia. subst. reflexivity.
  - destruct n as [|n]; simpl.
    + destruct m as [|m]; simpl; [reflexivity|].
      rewrite IH; [reflexivity | lia].
    + apply IH. lia.
Qed.

Lemma endswith_slash_append (s : string) : endswith_slash (s ++ "/") = true.
Proof.
  induction s as [|c s IH]; simpl; [reflexivity|].
  destruct (s ++ "/") eqn:E; [|exact IH].
  destruct s; discriminate.
Qed.

Lemma drop_last_append (s : string) : drop_last (s ++ "/") = s.
Proof.
  induction s as [|c s IH]; simpl; [reflexivity|].
  destruct (s ++ "/") eqn:E.
  - destruct s; discriminate.
  - now rewrite IH.
Qed.

(** ** Construction *)

(** X1. The constructor takes one trailing slash off the address, and only
    one; an address without a trailing slash is kept as it is. Either way
    the URL is made of the address kept, and the session starts without a
    token. *)
Theorem init_trailing_slash (cfg : Const) (ip : string) (password : option string)
        (timeout : Z) :
  __init__ cfg (ip ++ "/") password timeout
  = {| _ip := ip; _password := password; _timeout := timeout;
       _token := VNone; _url := CLIENT_URL cfg ip |}
  /\ ((forall s, ip <> s ++ "/") ->
      __init__ cfg ip password timeout
      = {| _ip := ip; _password := password; _timeout := timeout;
           _token := VNone; _url := CLIENT_URL cfg ip |}).
Proof.
  unfold __init__. split.
  - now rewrite endswith_slash_append, drop_last_append.
  - intros Hno. destruct (endswith_slash ip) eqn:E; [|reflexivity].
    exfalso. apply (Hno (drop_last ip)).
    clear Hno. induction ip as [|c ip IH]; [discriminate|].
    simpl in *. destruct ip as [|c' ip].
    + apply Ascii.eqb_eq in E. now subst.
    + simpl. f_equal. now apply IH.
Qed.

Lemma init_trailing_slash_witness :
  __init__ example_cfg "192.168.31.1/" (Some "secret") 5
  = __init__ example_cfg "192.168.31.1" (Some "secret") 5
  /\ _ip (__init__ example_cfg "192.168.31.1//" None 5) = "192.168.31.1/".
Proof.
  split.
  - etransitivity.
    + exact (proj1 (init_trailing_slash example_cfg "192.168.31.1" (Some "secret") 5)).
    + symmetry.
      apply (proj2 (init_trailing_slash example_cfg "192.168.31.1" (Some "secret") 5)).
      intros s H.
      pose proof (endswith_slash_append s) as E. rewrite <- H in E. discriminate E.
  - exact (f_equal _ip (proj1 (init_trailing_slash example_cfg "192.168.31.1/" None 5))).
Defined.

(** ** Credential hasher *)

Lemma zfill_length (width : nat) (s : string) :
  (width <= String.length (zfill width s))%nat.
Proof.
  unfold zfill. rewrite length_append.
  assert (H : forall k, String.length (string_of_list_ascii (repeat "0"%char k)) = k).
  { induction k as [|k IH]; simpl; [reflexivity | now rewrite IH]. }
  rewrite H. lia.
Qed.

(** The text of a number in hexadecimal, read back. *)
Lemma uint_of_string_zeros (k : nat) (s : string) :
  HexadecimalString.NilEmpty.uint_of_string
    (string_of_list_ascii (repeat "0"%char k) ++ s)
  = option_map (Nat.iter k Hexadecimal.D0) (HexadecimalString.NilEmpty.uint_of_string s).
Proof.
  induction k as [|k IH]; simpl.
  - now destruct (HexadecimalString.NilEmpty.uint_of_string s).
  - rewrite IH. now destruct (HexadecimalString.NilEmpty.uint_of_string s).
Qed.

Lemma of_hex_uint_zeros (k : nat) (d : Hexadecimal.uint) :
  N.of_hex_uint (Nat.iter k Hexadecimal.D0 d) = N.of_hex_uint d.
Proof. induction k as [|k IH]; simpl; [reflexivity | exact IH]. Qed.

Lemma string_of_uint_length (d : Hexadecimal.uint) :
  String.length (HexadecimalString.NilEmpty.string_of_uint d) = Hexadecimal.nb_digits d.
Proof. induction d; simpl; congruence. Qed.

Lemma zfill_parses (n : N) :
  option_map N.of_hex_uint
             (HexadecimalString.NilEmpty.uint_of_string
                (zfill 12 (HexadecimalString.NilZero.string_of_uint (N.to_hex_uint n))))
  = Some n.
Proof.
  unfold zfill. rewrite uint_of_string_zeros.
  assert (Hnonnil : N.to_hex_uint n <> Hexadecimal.Nil).
  { destruct n as [|p]; [discriminate|]. apply HexadecimalPos.Unsigned.to_uint_nonnil. }
  assert (Hs : HexadecimalString.NilZero.string_of_uint (N.to_hex_uint n)
               = HexadecimalString.NilEmpty.string_of_uint (N.to_hex_uint n)).
  { destruct (N.to_hex_uint n); [now contradiction Hnonnil | reflexivity..]. }
  rewrite Hs, HexadecimalString.NilEmpty.usu. simpl.
  now rewrite of_hex_uint_zeros, HexadecimalN.Unsigned.of_to.
Qed.

(** A number with a leading digit other than 0 is at least the power of 16
    of the digits that follow. *)
Lemma of_hex_uint_acc_lower (d : Hexadecimal.uint) :
  forall acc : positive,
    (Npos acc * 16 ^ N.of_nat (Hexadecimal.nb_digits d)
     <= Npos (Pos.of_hex_uint_acc d acc))%N.
Proof.
  induction d; intros acc;
    try (cbn [Pos.of_hex_uint_acc Hexadecimal.nb_digits];
         rewrite Nat2N.inj_succ, N.pow_succ_r';
         etransitivity; [|apply IHd];
         rewrite N.mul_assoc; apply N.mul_le_mono_r; lia).
  simpl. lia.
Qed.

Lemma to_hex_uint_digits (n : N) :
  (n < 2 ^ 48)%N -> (Hexadecimal.nb_digits (N.to_hex_uint n) <= 12)%nat.
Proof.
  intros Hn.
  destruct (le_lt_dec (Hexadecimal.nb_digits (N.to_hex_uint n)) 12) as [H | H];
    [exact H | exfalso].
  pose proof (HexadecimalN.Unsigned.of_to n) as Hof.
  pose proof (HexadecimalN.Unsigned.to_of (N.to_hex_uint n)) as Hnorm.
  rewrite Hof in Hnorm.
  destruct (N.to_hex_uint n) as [|d|d|d|d|d|d|d|d|d|d|d|d|d|d|d|d] eqn:E;
    cbn [Hexadecimal.nb_digits] in H;
    try (assert (Hlow : (2 ^ 48 <= n)%N);
         [ rewrite <- Hof; unfold N.of_hex_uint, Pos.of_hex_uint;
           etransitivity; [|apply of_hex_uint_acc_lower];
           change (2 ^ 48)%N with (16 ^ 12)%N;
           etransitivity; [apply (N.pow_le_mono_r 16 12 (N.of_nat (Hexadecimal.nb_digits d))); lia|];
           lia
         | lia ]).
  - simpl in H. lia.
  - rewrite HexadecimalFacts.unorm_D0 in Hnorm.
    assert (Hd : d <> Hexadecimal.Nil) by (intros ->; simpl in H; lia).
    pose proof (HexadecimalFacts.nb_digits_unorm d Hd) as Hle.
    rewrite <- Hnorm in Hle. cbn [Hexadecimal.nb_digits] in Hle. lia.
Qed.

Lemma substrings_of_twelve (s : string) :
  String.length s = 12%nat ->
  String.substring 0 2 s ++ String.substring 2 2 s ++ String.substring 4 2 s
    ++ String.substring 6 2 s ++ String.substring 8 2 s ++ String.substring 10 2 s
  = s.
Proof.
  intros H.
  do 12 (destruct s as [|? s]; [discriminate H|]).
  destruct s; [reflexivity | discriminate H].
Qed.

(** X2. Whatever the node number, the address is six groups of two
    characters joined by colons, seventeen characters in all; and for a
    node number of 48 bits, as [uuid.getnode] gives, the six groups read
    together as one hexadecimal number are the node number. *)
Theorem get_mac_address_shape (env : Env) :
  exists g0 g1 g2 g3 g4 g5,
    get_mac_address env
    = g0 ++ ":" ++ g1 ++ ":" ++ g2 ++ ":" ++ g3 ++ ":" ++ g4 ++ ":" ++ g5
    /\ Forall (fun g => String.length g = 2%nat) [g0; g1; g2; g3; g4; g5]
    /\ String.length (get_mac_address env) = 17%nat
    /\ ((uuid_getnode env < 2 ^ 48)%N ->
        option_map N.of_hex_uint
                   (HexadecimalString.NilEmpty.uint_of_string
                      (g0 ++ g1 ++ g2 ++ g3 ++ g4 ++ g5))
        = Some (uuid_getnode env)).
Proof.
  unfold get_mac_address.
  pose proof (zfill_parses (uuid_getnode env)) as Hparse.
  assert (Hexact : (uuid_getnode env < 2 ^ 48)%N ->
                   String.length
                     (zfill 12 (HexadecimalString.NilZero.string_of_uint
                                  (N.to_hex_uint (uuid_getnode env))))
                   = 12%nat).
  { intros Hnode. unfold zfill. rewrite length_append.
    assert (Hzeros : forall k,
               String.length (string_of_list_ascii (repeat "0"%char k)) = k).
    { induction k as [|k IH]; simpl; [reflexivity | now rewrite IH]. }
    rewrite Hzeros.
    assert (Hdigits : (String.length
                         (HexadecimalString.NilZero.string_of_uint
                            (N.to_hex_uint (uuid_getnode env))) <= 12)%nat).
    { pose proof (to_hex_uint_digits (uuid_getnode env) Hnode) as Hd.
      destruct (N.to_hex_uint (uuid_getnode env)) eqn:E;
        [simpl; lia | (cbn [HexadecimalString.NilZero.string_of_uint];
                       rewrite string_of_uint_length; exact Hd)..]. }
    lia. }
  set (as_hex := zfill 12 _) in *.
  assert (Hlen : (12 <= String.length as_hex)%nat) by apply zfill_length.
  assert (Hgroup : forall i, (i <= 10)%nat ->
                             String.length (String.substring i 2 as_hex) = 2%nat).
  { intros i Hi. apply substring_length. lia. }
  exists (String.substring 0 2 as_hex), (String.substring 2 2 as_hex),
    (String.substring 4 2 as_hex), (String.substring 6 2 as_hex),
    (String.substring 8 2 as_hex), (String.substring 10 2 as_hex).
  split; [reflexivity|]. split; [|split].
  - repeat constructor; apply Hgroup; lia.
  - cbn [map String.concat]. rewrite !length_append, !Hgroup by lia. reflexivity.
  - intros Hnode. rewrite (substrings_of_twelve as_hex (Hexact Hnode)). exact Hparse.
Qed.

(** The address of the node 02:42:ac:11:00:02. *)
Lemma get_mac_address_shape_witness :
  exists g0 g1 g2 g3 g4 g5,
    get_mac_address (scripted [])
    = g0 ++ ":" ++ g1 ++ ":" ++ g2 ++ ":" ++ g3 ++ ":" ++ g4 ++ ":" ++ g5
    /\ option_map N.of_hex_uint
                  (HexadecimalString.NilEmpty.uint_of_string
                     (g0 ++ g1 ++ g2 ++ g3 ++ g4 ++ g5))
       = Some (uuid_getnode (scripted [])).
Proof.
  destruct (get_mac_address_shape (scripted []))
    as (g0 & g1 & g2 & g3 & g4 & g5 & Haddress & _ & _ & Hnode).
  exists g0, g1, g2, g3, g4, g5. split; [exact Haddress|].
  apply Hnode. reflexivity.
Defined.

Example get_mac_address_example :
  get_mac_address (scripted []) = "02:42:ac:11:00:02".
Proof. vm_compute. reflexivity. Qed.

Lemma hex_digit_lowercase (d : Z) :
  (0 <= d < 16)%Z ->
  In (Hashlib.hex_digit d) (list_ascii_of_string "0123456789abcdef").
Proof.
  intros H.
  assert (Hd : exists n, (n < 16)%nat /\ d = Z.of_nat n).
  { exists (Z.to_nat d). split; lia. }
  destruct Hd as (n & Hn & ->). unfold Hashlib.hex_digit. rewrite Nat2Z.id.
  do 16 (destruct n as [|n]; [simpl; tauto|]). lia.
Qed.

Lemma hex_of_bytes_lowercase (bs : list Z) :
  Forall (fun b => (0 <= b < 256)%Z) bs ->
  Forall (fun c => In c (list_ascii_of_string "0123456789abcdef"))
         (list_ascii_of_string (Hashlib.hex_of_bytes bs)).
Proof.
  induction 1 as [|b bs Hb _ IH]; [constructor|].
  cbn [Hashlib.hex_of_bytes list_ascii_of_string].
  constructor; [|constructor]; [| |exact IH]; apply hex_digit_lowercase.
  - split; [apply Z.div_pos; lia | apply Z.div_lt_upper_bound; lia].
  - apply Z.mod_pos_bound. lia.
Qed.

Lemma be_bytes_range (n : nat) (x : Z) :
  Forall (fun b => (0 <= b < 256)%Z) (Hashlib.be_bytes n x).
Proof.
  unfold Hashlib.be_bytes. apply Forall_forall. intros b Hb.
  apply in_map_iff in Hb. destruct Hb as (i & <- & _).
  apply Z.mod_pos_bound. lia.
Qed.

(** X3. Whatever the key, [sha1] gives forty characters, each a digit or a
    lowercase letter from a to f. *)
Theorem sha1_hexdigest_shape (key : string) :
  String.length (sha1 key) = 40%nat
  /\ Forall (fun c => In c (list_ascii_of_string "0123456789abcdef"))
            (list_ascii_of_string (sha1 key)).
Proof.
  split; [apply sha1_length|].
  unfold sha1, Hashlib.hexdigest. apply hex_of_bytes_lowercase.
  unfold Hashlib.digest.
  destruct (fold_left Hashlib.compress _ Hashlib.initial) as [[[[h0 h1] h2] h3] h4].
  repeat (apply Forall_app; split); apply be_bytes_range.
Qed.

(** ** Session manager *)

(** X4. A login with a password, on a client that opens, sends one POST to
    the login path, whatever comes of it, and the password of its form is
    the hash of the nonce of the same form. *)
Theorem login_posts_hash_of_nonce (cfg : Const) (env : Env) (c : LuciClient)
        (w : World) (password : string) :
  _password c = Some password ->
  aenter env (entered w) = None ->
  exists nonce,
    sent (snd (login cfg env c w))
    = (sent w ++
       [{| req_verb := POST;
           req_url := _url c ++ "/api/xqsystem/login";
           req_data :=
             [("username", CLIENT_USERNAME cfg);
              ("logtype", py_str (repr env) (CLIENT_LOGIN_TYPE cfg));
              ("password", sha1 (nonce ++ sha1 (password ++ CLIENT_PUBLIC_KEY cfg)));
              ("nonce", nonce)];
           req_timeout := _timeout c |}])%list.
Proof.
  intros Hpassword Henter. rewrite (login_run cfg env c w password Hpassword).
  cbv zeta. rewrite Henter.
  eexists. repeat break_match; simpl in *; try discriminate; reflexivity.
Qed.

Lemma login_posts_hash_of_nonce_witness :
  exists nonce,
    sent (snd (login example_cfg (scripted []) example_client fresh))
    = [{| req_verb := POST;
          req_url := "http://192.168.31.1/cgi-bin/luci/api/xqsystem/login";
          req_data :=
            [("username", "admin"); ("logtype", "2");
             ("password",
              sha1 (nonce ++ sha1 ("secret" ++ "a2ffa5c9be07488bbb04a3a47d3c5f6a")));
             ("nonce", nonce)];
          req_timeout := 5 |}].
Proof.
  exact (login_posts_hash_of_nonce example_cfg (scripted []) example_client fresh
           "secret" eq_refl eq_refl).
Defined.

(** X5. Whenever [login] returns, the payload it returns has a [token], the
    session holds exactly that token and is otherwise as before, and the
    client has been opened once more. The next [get] puts that token in its
    URL when the client opens again; when it does not, as a closed
    [httpx.AsyncClient] does not, the next [get] sends nothing and raises
    what entering the client raised (an [HTTPError] as
    [LuciConnectionException]). *)
Theorem login_returns_with_token (cfg : Const) (env : Env) (c c' : LuciClient)
        (w w' : World) (data : value) :
  login cfg env c w = (Ok data, c', w') ->
  exists token,
    py_getitem data "token" = Ok token
    /\ c' = with_token token c
    /\ entered w' = S (entered w)
    /\ (forall path,
           aenter env (entered w') = None ->
           map req_url (sent (snd (get env path true c' w')))
           = (map req_url (sent w')
                ++ [(_url c ++ "/;stok=" ++ py_str (repr env) token
                            ++ "/api/" ++ path)%string])%list)
    /\ (forall path e,
           aenter env (entered w') = Some e ->
           get env path true c' w'
           = (Raise (match e with HTTPError => LuciConnectionException | _ => e end),
              c', w')).
Proof.
  unfold login, generate_nonce, generate_password_hash. unfold_M. simpl.
  repeat break_match; intros H; inversion H; subst;
    repeat match goal with
           | H : (_, _) = (_, _) |- _ => inversion H; clear H; subst
           end;
    try discriminate.
  eexists. split; [eassumption|]. split; [reflexivity|]. split; [reflexivity|].
  split.
  - intros path Henter. rewrite get_run. cbv zeta. rewrite Henter.
    simpl. now rewrite map_app.
  - intros path e Henter. rewrite get_run. cbv zeta. rewrite Henter.
    destruct e; reflexivity.
Qed.

(** A login on a client that opens once only: the token is held, and the
    [get] that follows raises [RuntimeError]. *)
Lemma login_returns_with_token_witness :
  let env := closing [reply 200 (json_object "token" (json_string "new"))] in
  let session := login example_cfg env example_client fresh in
  exists token,
    py_getitem (VDict [("token", VStr "new")]) "token" = Ok token
    /\ snd (fst session) = with_token token example_client
    /\ get env "misystem/status" true (snd (fst session)) (snd session)
       = (Raise RuntimeError, snd (fst session), snd session).
Proof.
  intros env session.
  destruct (login_returns_with_token example_cfg env example_client
              (snd (fst session)) fresh (snd session)
              (VDict [("token", VStr "new")]))
    as (token & Htoken & Hclient & _ & _ & Hclosed).
  - vm_compute. reflexivity.
  - exists token. split; [exact Htoken|]. split; [exact Hclient|].
    apply (Hclosed "misystem/status" RuntimeError). reflexivity.
Defined.

Lemma login_without_password_witness :
  sent (snd (login example_cfg (scripted [])
                   (__init__ example_cfg "192.168.31.1" None 5) fresh))
  = []
  /\ fst (login example_cfg (scripted []) (__init__ example_cfg "192.168.31.1" None 5)
                fresh)
     = (Raise TypeError, __init__ example_cfg "192.168.31.1" None 5).
Proof.
  destruct (login_without_password example_cfg (scripted [])
              (__init__ example_cfg "192.168.31.1" None 5) fresh eq_refl)
    as (Hsent & _ & Hraise).
  split; [exact Hsent | exact (Hraise eq_refl)].
Defined.

Lemma login_transport_failure_witness :
  fst (login example_cfg (scripted []) example_client fresh)
  = (Raise LuciConnectionException, example_client).
Proof.
  apply (login_transport_failure example_cfg (scripted []) example_client fresh "secret"
           {| req_verb := POST;
              req_url := "http://192.168.31.1/cgi-bin/luci/api/xqsystem/login";
              req_data :=
                [("username", "admin"); ("logtype", "2");
                 ("password", "9194216febf3824185972d005d0303b9b3db0fa6");
                 ("nonce", "0_02:42:ac:11:00:02_1700000000_0")];
              req_timeout := 5 |}).
  - reflexivity.
  - vm_compute. reflexivity.
  - reflexivity.
Defined.

(** The router answers 500 with a body that is no object. *)
Lemma login_status_not_200_witness :
  fst (login example_cfg (scripted [reply 500 "null"]) example_client fresh)
  = (Raise LuciTokenException, example_client).
Proof.
  apply (login_status_not_200 example_cfg (scripted [reply 500 "null"]) example_client
           fresh "secret"
           {| req_verb := POST;
              req_url := "http://192.168.31.1/cgi-bin/luci/api/xqsystem/login";
              req_data :=
                [("username", "admin"); ("logtype", "2");
                 ("password", "9194216febf3824185972d005d0303b9b3db0fa6");
                 ("nonce", "0_02:42:ac:11:00:02_1700000000_0")];
              req_timeout := 5 |}
           {| status_code := 500; content := "null" |} VNone).
  - reflexivity.
  - vm_compute. reflexivity.
  - reflexivity.
  - vm_compute. reflexivity.
  - discriminate.
Defined.

(** X10. The token is never cleared, so a second [logout], on a client that
    opens both times, sends the very request of the first once more; on a
    client that opens once only, the second [logout] sends nothing and
    raises what entering the client raised. *)
Theorem logout_repeats (env : Env) (c : LuciClient) (w : World) :
  _token c <> VNone ->
  aenter env (entered w) = None ->
  (aenter env (S (entered w)) = None ->
   exists req,
     sent (snd (logout env (snd (fst (logout env c w))) (snd (logout env c w))))
     = (sent w ++ [req; req])%list
     /\ req_url req
        = _url c ++ "/;stok=" ++ py_str (repr env) (_token c) ++ "/web/logout")
  /\ (forall e,
         aenter env (S (entered w)) = Some e ->
         e <> HTTPError ->
         exists req,
           logout env (snd (fst (logout env c w))) (snd (logout env c w))
           = (Raise e, c,
              {| sent := (sent w ++ [req])%list; draws := draws w;
                 entered := S (entered w) |})
           /\ req_url req
              = _url c ++ "/;stok=" ++ py_str (repr env) (_token c) ++ "/web/logout").
Proof.
  intros Htoken Henter. rewrite (logout_run env c w Htoken). cbv zeta.
  rewrite Henter. cbn [fst snd].
  rewrite (logout_run env c _ Htoken). cbv zeta. cbn [fst snd sent entered].
  split.
  - intros Hagain. rewrite Hagain. cbn [snd sent].
    eexists. split.
    + rewrite <- app_assoc. reflexivity.
    + reflexivity.
  - intros e Hagain He. rewrite Hagain.
    eexists. split.
    + destruct e; try reflexivity. now contradiction He.
    + reflexivity.
Qed.

Lemma logout_repeats_witness :
  (exists req,
      sent (snd (logout (scripted [])
                        (snd (fst (logout (scripted []) (logged_in "abc") fresh)))
                        (snd (logout (scripted []) (logged_in "abc") fresh))))
      = [req; req]
      /\ req_url req = "http://192.168.31.1/cgi-bin/luci/;stok=abc/web/logout")
  /\ (exists req,
         logout (closing [])
                (snd (fst (logout (closing []) (logged_in "abc") fresh)))
                (snd (logout (closing []) (logged_in "abc") fresh))
         = (Raise RuntimeError, logged_in "abc",
            {| sent := [req]; draws := 0; entered := 1 |})
         /\ req_url req = "http://192.168.31.1/cgi-bin/luci/;stok=abc/web/logout").
Proof.
  split.
  - refine (proj1 (logout_repeats (scripted []) (logged_in "abc") fresh _ eq_refl)
                  eq_refl).
    discriminate.
  - refine (proj2 (logout_repeats (closing []) (logged_in "abc") fresh _ eq_refl)
                  RuntimeError eq_refl _); discriminate.
Defined.

(** ** Request dispatcher *)

(** X11. [get] never writes to the session: whatever comes of the call, the
    client is as before and nothing is drawn from the clock or the random
    source. On a client that opens, exactly one request has been sent and
    the client has been opened once more; on a client that does not open,
    nothing is sent and [get] raises what entering the client raised (an
    [HTTPError] as [LuciConnectionException]). *)
Theorem get_keeps_session (env : Env) (path : string) (use_stok : bool)
        (c : LuciClient) (w : World) :
  snd (fst (get env path use_stok c w)) = c
  /\ draws (snd (get env path use_stok c w)) = draws w
  /\ (aenter env (entered w) = None ->
      List.length (sent (snd (get env path use_stok c w))) = S (List.length (sent w))
      /\ entered (snd (get env path use_stok c w)) = S (entered w))
  /\ (forall e,
         aenter env (entered w) = Some e ->
         get env path use_stok c w
         = (Raise (match e with HTTPError => LuciConnectionException | _ => e end),
            c, w)).
Proof.
  rewrite get_run. cbv zeta.
  destruct (aenter env (entered w)) as [e|] eqn:Henter.
  - split; [destruct e; reflexivity|]. split; [destruct e; reflexivity|].
    split; [discriminate|].
    intros e' He'. injection He' as <-. destruct e; reflexivity.
  - cbn [fst snd sent draws entered].
    split; [reflexivity|]. split; [reflexivity|]. split; [|discriminate].
    intros _. rewrite length_app. simpl. split; [lia | reflexivity].
Qed.

(** A first [get] on a client that opens once only, and a second. *)
Lemma get_keeps_session_witness :
  (List.length (sent (snd (get (closing []) "misystem/status" true
                               (logged_in "abc") fresh))) = 1%nat
   /\ entered (snd (get (closing []) "misystem/status" true (logged_in "abc") fresh))
      = 1%nat)
  /\ get (closing []) "misystem/status" true (logged_in "abc")
         {| sent := []; draws := 0; entered := 1 |}
     = (Raise RuntimeError, logged_in "abc",
        {| sent := []; draws := 0; entered := 1 |}).
Proof.
  split.
  - exact (proj1 (proj2 (proj2 (get_keeps_session (closing []) "misystem/status" true
                                                  (logged_in "abc") fresh)))
                 eq_refl).
  - exact (proj2 (proj2 (proj2 (get_keeps_session
                                  (closing []) "misystem/status" true (logged_in "abc")
                                  {| sent := []; draws := 0; entered := 1 |})))
                 RuntimeError eq_refl).
Defined.

(** X12. Whenever [get] returns, what it returns is an object whose [code] is a
    number not above 0, and the client is as before. *)
Theorem get_returns_accepted_object (env : Env) (path : string) (use_stok : bool)
        (c c' : LuciClient) (w w' : World) (data : value) :
  get env path use_stok c w = (Ok data, c', w') ->
  exists items code,
    data = VDict items
    /\ dict_get "code" items = Some code
    /\ is_number code = true
    /\ py_gt0 code = Ok false
    /\ c' = c.
Proof.
  rewrite get_run. cbv zeta.
  destruct (aenter env (entered w)) as [e|]; [destruct e; discriminate|].
  destruct (router env (sent w) _) as [response| |e];
    [|discriminate | destruct e; discriminate].
  destruct (json_loads env (content response)) as [body|e];
    [|destruct e; discriminate].
  destruct body as [|b|z|x|s|items|items]; simpl; try discriminate.
  - destruct (is_substring "code" s); discriminate.
  - destruct (existsb _ items); discriminate.
  - unfold dict_mem. destruct (dict_get "code" items) as [code|] eqn:Hcode;
      [|discriminate].
    destruct code as [|b|z|x| | |]; simpl; try discriminate.
    + destruct b eqn:Hb; [discriminate|]. intros H. inversion H; subst.
      exists items, (VBool false). auto.
    + destruct (0 <? z)%Z eqn:Hz; [discriminate|]. intros H. inversion H; subst.
      exists items, (VInt z). simpl. rewrite Hz. auto.
    + destruct (PrimFloat.ltb PrimFloat.zero x) eqn:Hx; [discriminate|].
      intros H. inversion H; subst.
      exists items, (VFloat x). simpl. rewrite Hx. auto.
Qed.

Lemma get_returns_accepted_object_witness :
  exists items code,
    VDict [("code", VInt 0)] = VDict items
    /\ dict_get "code" items = Some code
    /\ is_number code = true
    /\ py_gt0 code = Ok false
    /\ snd (fst (get (scripted [reply 200 (json_object "code" "0")]) "misystem/status"
                     true (logged_in "abc") fresh))
       = logged_in "abc".
Proof.
  apply (get_returns_accepted_object
           (scripted [reply 200 (json_object "code" "0")]) "misystem/status" true
           (logged_in "abc") _ fresh
           (snd (get (scripted [reply 200 (json_object "code" "0")]) "misystem/status"
                     true (logged_in "abc") fresh))).
  vm_compute. reflexivity.
Defined.

(** X15. A reply that decodes to [null], to a boolean or to a number cannot be
    searched for [code]: [get] raises [TypeError]. *)
Theorem get_scalar_reply (env : Env) (path : string) (use_stok : bool)
        (c : LuciClient) (w : World) (req : Request) (response : Response)
        (data : value) :
  sent (snd (get env path use_stok c w)) = (sent w ++ [req])%list ->
  router env (sent w) req = Replied response ->
  json_loads env (content response) = Ok data ->
  data = VNone \/ is_number data = true ->
  fst (get env path use_stok c w) = (Raise TypeError, c).
Proof.
  intros Hsent Hreply Hjson Hscalar.
  rewrite (get_answered env path use_stok c w req Hsent), Hreply, Hjson.
  destruct Hscalar as [-> | Hnumber]; [reflexivity|].
  destruct data; simpl in *; try discriminate; reflexivity.
Qed.

Lemma get_scalar_reply_witness :
  fst (get (scripted [reply 200 "null"]) "misystem/status" true (logged_in "abc") fresh)
  = (Raise TypeError, logged_in "abc").
Proof.
  apply (get_scalar_reply (scripted [reply 200 "null"]) "misystem/status" true
           (logged_in "abc") fresh
           {| req_verb := GET;
              req_url := "http://192.168.31.1/cgi-bin/luci/;stok=abc/api/misystem/status";
              req_data := [];
              req_timeout := 5 |}
           {| status_code := 200; content := "null" |} VNone).
  - vm_compute. reflexivity.
  - reflexivity.
  - vm_compute. reflexivity.
  - left. reflexivity.
Defined.

Lemma get_transport_failure_witness :
  fst (get (scripted []) "misystem/status" true (logged_in "abc") fresh)
  = (Raise LuciConnectionException, logged_in "abc").
Proof.
  apply (get_transport_failure (scripted []) "misystem/status" true (logged_in "abc")
           fresh
           {| req_verb := GET;
              req_url := "http://192.168.31.1/cgi-bin/luci/;stok=abc/api/misystem/status";
              req_data := [];
              req_timeout := 5 |}).
  - vm_compute. reflexivity.
  - reflexivity.
Defined.

Lemma get_code_no_number_witness :
  fst (get (scripted [reply 200 (json_object "code" "null")]) "misystem/status" true
           (logged_in "abc") fresh)
  = (Raise TypeError, logged_in "abc").
Proof.
  apply (get_code_no_number (scripted [reply 200 (json_object "code" "null")])
           "misystem/status" true (logged_in "abc") fresh
           {| req_verb := GET;
              req_url := "http://192.168.31.1/cgi-bin/luci/;stok=abc/api/misystem/status";
              req_data := [];
              req_timeout := 5 |}
           {| status_code := 200; content := json_object "code" "null" |}
           [("code", VNone)] VNone).
  - vm_compute. reflexivity.
  - reflexivity.
  - vm_compute. reflexivity.
  - reflexivity.
  - reflexivity.
Defined.

(** ** Endpoints *)

(** X16. [topo_graph] is anonymous: the request it sends and what comes of it
    are the same whatever token the session holds; on a client that opens,
    the request goes to the URL without a stok segment. *)
Theorem topo_graph_ignores_token (env : Env) (c : LuciClient) (w : World)
        (token token' : value) :
  fst (fst (topo_graph env (with_token token c) w))
  = fst (fst (topo_graph env (with_token token' c) w))
  /\ snd (topo_graph env (with_token token c) w)
     = snd (topo_graph env (with_token token' c) w)
  /\ (aenter env (entered w) = None ->
      map req_url (sent (snd (topo_graph env (with_token token c) w)))
      = (map req_url (sent w) ++ [(_url c ++ "/api/misystem/topo_graph")%string])%list).
Proof.
  unfold topo_graph. rewrite !get_run. cbv zeta.
  destruct (aenter env (entered w)) as [e|].
  - split; [destruct e; reflexivity|]. split; [destruct e; reflexivity | discriminate].
  - cbn [fst snd sent]. repeat split. simpl. now rewrite map_app.
Qed.

Lemma topo_graph_ignores_token_witness :
  map req_url (sent (snd (topo_graph (closing []) (with_token (VStr "abc") example_client)
                                     fresh)))
  = ["http://192.168.31.1/cgi-bin/luci/api/misystem/topo_graph"].
Proof.
  exact (proj2 (proj2 (topo_graph_ignores_token (closing []) example_client fresh
                                                (VStr "abc") VNone))
               eq_refl).
Defined.

Lemma str_of_int_parses (z : Z) :
  DecimalString.NilZero.int_of_string (str_of_int z) = Some (Z.to_int z).
Proof.
  unfold str_of_int. apply DecimalString.NilZero.isi.
  - intros H. pose proof (f_equal Z.of_int H) as H'.
    rewrite DecimalZ.of_to in H'. subst z. vm_compute in H. discriminate H.
  - intros H. pose proof (f_equal Z.of_int H) as H'.
    rewrite DecimalZ.of_to in H'. subst z. vm_compute in H. discriminate H.
Qed.

Lemma str_of_int_inj (z z' : Z) : str_of_int z = str_of_int z' -> z = z'.
Proof.
  intros H. apply DecimalZ.to_int_inj.
  pose proof (str_of_int_parses z) as Hz. rewrite H, str_of_int_parses in Hz.
  now injection Hz.
Qed.

(** Two URLs with a common beginning, down to where they part. *)
Ltac peel H :=
  repeat first [ discriminate H
               | injection H as H
               | apply append_inv_head in H ].

(** X17. On a client that opens, the switches address one URL for each
    index: two indexes share the URL of [wifi_turn_on] only when they are
    the same index, and no index of [wifi_turn_on] shares its URL with an
    index of [wifi_turn_off]. *)
Theorem wifi_requests_distinct (env : Env) (c : LuciClient) (w : World) (i j : Z) :
  aenter env (entered w) = None ->
  (sent (snd (wifi_turn_on env i c w)) = sent (snd (wifi_turn_on env j c w)) -> i = j)
  /\ (sent (snd (wifi_turn_off env i c w)) = sent (snd (wifi_turn_off env j c w))
      -> i = j)
  /\ sent (snd (wifi_turn_on env i c w)) <> sent (snd (wifi_turn_off env j c w)).
Proof.
  intros Henter.
  unfold wifi_turn_on, wifi_turn_off. rewrite !get_run. cbv zeta.
  rewrite Henter. cbn [snd sent].
  repeat split.
  - intros H. apply sent_one_more in H. peel H. now apply str_of_int_inj.
  - intros H. apply sent_one_more in H. peel H. now apply str_of_int_inj.
  - intros H. apply sent_one_more in H. peel H.
Qed.

Lemma wifi_requests_distinct_witness :
  (sent (snd (wifi_turn_on (scripted []) 0 (logged_in "abc") fresh))
   = sent (snd (wifi_turn_on (scripted []) 0 (logged_in "abc") fresh)) -> 0%Z = 0%Z)
  /\ map req_url (sent (snd (wifi_turn_on (scripted []) 1 (logged_in "abc") fresh)))
     = ["http://192.168.31.1/cgi-bin/luci/;stok=abc/api/xqnetwork/wifi_up?index=1"].
Proof.
  split.
  - exact (proj1 (wifi_requests_distinct (scripted []) (logged_in "abc") fresh 0 0
                                         eq_refl)).
  - vm_compute. reflexivity.
Defined.

(** X18. On a client that opens, [led] asks for the state without a query
    and sets it with [?on=]: the two never share a URL, and two states set
    share one only when they are the same state. *)
Theorem led_requests_distinct (env : Env) (c : LuciClient) (w : World) (on on' : Z) :
  aenter env (entered w) = None ->
  sent (snd (led env None c w)) <> sent (snd (led env (Some on) c w))
  /\ (sent (snd (led env (Some on) c w)) = sent (snd (led env (Some on') c w))
      -> on = on').
Proof.
  intros Henter.
  unfold led. rewrite !get_run. cbv zeta. rewrite Henter. cbn [snd sent].
  split.
  - intros H. apply sent_one_more in H. peel H.
  - intros H. apply sent_one_more in H. peel H. now apply str_of_int_inj.
Qed.

Lemma led_requests_distinct_witness :
  sent (snd (led (scripted []) None (logged_in "abc") fresh))
  <> sent (snd (led (scripted []) (Some 1%Z) (logged_in "abc") fresh))
  /\ map req_url (sent (snd (led (scripted []) (Some 1%Z) (logged_in "abc") fresh)))
     = ["http://192.168.31.1/cgi-bin/luci/;stok=abc/api/misystem/led?on=1"].
Proof.
  split.
  - exact (proj1 (led_requests_distinct (scripted []) (logged_in "abc") fresh 1 1
                                        eq_refl)).
  - vm_compute. reflexivity.
Defined.

(** * Further properties of the sweep *)

Lemma probe_sentinel {S : Type} (client : Client S) (code method : string)
      (data : list (string * string)) (s : S) :
  is_sentinel method = true ->
  probe client (code, method) data s = (Ok (dict_set code method data), s, []).
Proof. intros H. unfold probe. now rewrite H. Qed.

(** The sweep of two catalogs one after the other. *)
Lemma probe_all_app {S : Type} (client : Client S) (xs ys : list (string * string)) :
  forall (data : list (string * string)) (s : S),
    probe_all client (xs ++ ys) data s
    = match probe_all client xs data s with
      | (Ok data1, s1, t1) =>
          let '(r, s2, t2) := probe_all client ys data1 s1 in
          (r, s2, (t1 ++ t2)%list)
      | (Raise e, s1, t1) => (Raise e, s1, t1)
      end.
Proof.
  induction xs as [|entry xs IH]; intros data s.
  - simpl. now destruct (probe_all client ys data s) as [[r s2] t2].
  - rewrite <- app_comm_cons, !probe_all_cons.
    destruct (probe client entry data s) as [[[data0|e] s0] t]; [|reflexivity].
    rewrite IH.
    destruct (probe_all client xs data0 s0) as [[[data1|e] s1] t1]; [|reflexivity].
    destruct (probe_all client ys data1 s1) as [[r s2] t2].
    now rewrite app_assoc.
Qed.

(** X20. Once an entry raises, the sweep is over: whatever entries come after it
    in the catalog, none is probed and no notification is made; the sweep
    raises what the entry raised. *)
Theorem sweep_stops_at_first_raise (cfg : Const) (host : Host) {S : Type}
        (client : Client S) (before after : list (string * string))
        (entry : string * string) (model : string) (s s1 s2 : S)
        (data1 : list (string * string)) (t1 t2 : list event) (e : exn) :
  probe_all client before [] s = (Ok data1, s1, t1) ->
  probe client entry data1 s1 = (Raise e, s2, t2) ->
  self_check cfg host client (before ++ entry :: after) model s
  = (Raise e, s2, (t1 ++ t2)%list).
Proof.
  intros Hbefore Hentry. unfold self_check.
  now rewrite probe_all_app, Hbefore, probe_all_cons, Hentry.
Qed.

Lemma sweep_stops_at_first_raise_witness :
  self_check example_cfg example_host (toy_client ["a"] [("b", JSONDecodeError)])
             ([("path/p1", "a")] ++ ("path/p2", "b") :: [("path/p3", "a")]) "R3600" []
  = (Raise JSONDecodeError, ["a"; "b"],
     [Started "a"; Resolved "a" (Ok tt);
      Started "b"; Resolved "b" (Raise JSONDecodeError)]).
Proof.
  apply (sweep_stops_at_first_raise example_cfg example_host
           (toy_client ["a"] [("b", JSONDecodeError)])
           [("path/p1", "a")] [("path/p3", "a")] ("path/p2", "b") "R3600"
           [] ["a"] ["a"; "b"] [("path/p1", "🟢")]
           [Started "a"; Resolved "a" (Ok tt)]
           [Started "b"; Resolved "b" (Raise JSONDecodeError)] JSONDecodeError).
  - reflexivity.
  - reflexivity.
Defined.

Lemma dict_mem_set_other {V : Type} (k c : string) (v : V) (d : list (string * V)) :
  dict_mem k d = true -> dict_mem k (dict_set c v d) = true.
Proof.
  unfold dict_mem.
  induction d as [|[k0 v0] d IH]; simpl; [discriminate|].
  destruct (String.eqb k0 c) eqn:Ec; simpl.
  - destruct (String.eqb k0 k); [reflexivity | auto].
  - destruct (String.eqb k0 k); [reflexivity | exact IH].
Qed.

(** What a step that does not raise leaves of the data: the data it found,
    or that data with the entry's code set. *)
Lemma probe_data {S : Type} (client : Client S) (code method : string)
      (data data1 : list (string * string)) (s s1 : S) (t : list event) :
  probe client (code, method) data s = (Ok data1, s1, t) ->
  data1 = data \/ exists v, data1 = dict_set code v data.
Proof.
  unfold probe.
  destruct (is_sentinel method); [intros H; inversion H; eauto|].
  destruct (getattr client s method) as [[call|[|]]|]; try discriminate.
  - destruct (call s) as [[[]|e] s3].
    + intros H; inversion H; eauto.
    + destruct (isinstance_LuciError e); [|discriminate].
      intros H; inversion H; eauto.
  - intros H; inversion H; auto.
Qed.

Lemma probe_all_keeps_keys {S : Type} (client : Client S)
      (catalog : list (string * string)) :
  forall (data data1 : list (string * string)) (s s1 : S) (t : list event) (k : string),
    probe_all client catalog data s = (Ok data1, s1, t) ->
    dict_mem k data = true -> dict_mem k data1 = true.
Proof.
  induction catalog as [|[code method] rest IH]; intros data data1 s s1 t k Hrun Hk.
  - simpl in Hrun. now inversion Hrun; subst.
  - rewrite probe_all_cons in Hrun.
    destruct (probe client (code, method) data s) as [[[d0|e] s0] t0] eqn:Hprobe;
      [|discriminate].
    destruct (probe_all client rest d0 s0) as [[[d2|e] s2] t2] eqn:Hrest;
      [|discriminate].
    inversion Hrun; subst. eapply IH; [exact Hrest|].
    destruct (probe_data _ _ _ _ _ _ _ _ Hprobe) as [-> | [v ->]];
      [exact Hk | now apply dict_mem_set_other].
Qed.

(** X21. A catalog of sentinels alone is swept without a single call: the state
    of the client is untouched, the sweep cannot raise, and every code of
    the catalog is in the data. *)
Theorem sentinels_make_no_call {S : Type} (client : Client S)
        (catalog : list (string * string)) :
  (forall entry, In entry catalog -> is_sentinel (snd entry) = true) ->
  forall (data : list (string * string)) (s : S),
  exists data1,
    probe_all client catalog data s = (Ok data1, s, [])
    /\ forall entry, In entry catalog -> dict_mem (fst entry) data1 = true.
Proof.
  induction catalog as [|[code method] rest IH]; intros Hsentinel data s.
  - exists data. split; [reflexivity | intros entry []].
  - rewrite probe_all_cons, probe_sentinel
      by (apply (Hsentinel (code, method)); now left).
    destruct (IH (fun entry Hin => Hsentinel entry (or_intror Hin))
                 (dict_set code method data) s) as (data1 & Hall & Hmem).
    rewrite Hall. exists data1. split; [reflexivity|].
    intros entry [<- | Hin]; [|now apply Hmem].
    simpl. eapply probe_all_keeps_keys; [exact Hall|].
    unfold dict_mem. now rewrite dict_get_set_same.
Qed.

Lemma sentinels_make_no_call_witness :
  exists data1,
    probe_all (toy_client [] [])
              [("xqsystem/reboot", "⚪"); ("xqsystem/upgrade_rom", "⚪")] [] ["earlier"]
    = (Ok data1, ["earlier"], [])
    /\ forall entry,
        In entry [("xqsystem/reboot", "⚪"); ("xqsystem/upgrade_rom", "⚪")] ->
        dict_mem (fst entry) data1 = true.
Proof.
  apply (sentinels_make_no_call (toy_client [] [])
           [("xqsystem/reboot", "⚪"); ("xqsystem/upgrade_rom", "⚪")]).
  intros entry [<- | [<- | []]]; reflexivity.
Defined.

Lemma dict_set_nodup {V : Type} (k : string) (v : V) (d : list (string * V)) :
  NoDup (map fst d) -> NoDup (map fst (dict_set k v d)).
Proof.
  intros Hd. rewrite dict_set_keys.
  destruct (existsb (String.eqb k) (map fst d)) eqn:E; [exact Hd|].
  apply NoDup_app; [exact Hd | repeat constructor; intros [] |].
  intros x Hx [Hk | []]. subst x.
  assert (Hex : existsb (String.eqb k) (map fst d) = true).
  { apply existsb_exists. exists k. split; [exact Hx | apply String.eqb_refl]. }
  congruence.
Qed.

Lemma probe_all_keys {S : Type} (client : Client S) (catalog : list (string * string)) :
  forall (data data1 : list (string * string)) (s s1 : S) (t : list event),
    probe_all client catalog data s = (Ok data1, s1, t) ->
    NoDup (map fst data) ->
    NoDup (map fst data1)
    /\ incl (map fst data1) (map fst data ++ map fst catalog).
Proof.
  induction catalog as [|[code method] rest IH]; intros data data1 s s1 t Hrun Hnodup.
  - simpl in Hrun. inversion Hrun; subst. split; [exact Hnodup|].
    rewrite app_nil_r. apply incl_refl.
  - rewrite probe_all_cons in Hrun.
    destruct (probe client (code, method) data s) as [[[d0|e] s0] t0] eqn:Hprobe;
      [|discriminate].
    destruct (probe_all client rest d0 s0) as [[[d2|e] s2] t2] eqn:Hrest;
      [|discriminate].
    inversion Hrun; subst.
    destruct (probe_data _ _ _ _ _ _ _ _ Hprobe) as [-> | [v ->]].
    + destruct (IH _ _ _ _ _ Hrest Hnodup) as [Hn Hincl]. split; [exact Hn|].
      intros x Hx. apply Hincl in Hx. apply in_app_or in Hx. apply in_or_app.
      destruct Hx as [Hx | Hx]; [now left | right; now right].
    + destruct (IH _ _ _ _ _ Hrest (dict_set_nodup code v data Hnodup)) as [Hn Hincl].
      split; [exact Hn|].
      intros x Hx. apply Hincl in Hx. apply in_app_or in Hx. apply in_or_app.
      destruct Hx as [Hx | Hx]; [|right; now right].
      rewrite dict_set_keys in Hx.
      destruct (existsb (String.eqb code) (map fst data)); [now left|].
      apply in_app_or in Hx. destruct Hx as [Hx | [<- | []]];
        [now left | right; now left].
Qed.

(** X22. When the first loop ends, its data holds no code twice and no code
    that is not in the catalog: the check list has at most one line for a
    code, and no more lines than the catalog has entries. *)
Theorem sweep_data_keys {S : Type} (client : Client S)
        (catalog data : list (string * string)) (s s1 : S) (t : list event) :
  probe_all client catalog [] s = (Ok data, s1, t) ->
  NoDup (map fst data)
  /\ incl (map fst data) (map fst catalog)
  /\ (List.length (report_lines data) <= List.length catalog)%nat.
Proof.
  intros Hrun.
  destruct (probe_all_keys client catalog [] data s s1 t Hrun (NoDup_nil _))
    as [Hnodup Hincl].
  split; [exact Hnodup|]. split; [exact Hincl|].
  unfold report_lines. rewrite length_map, <- (length_map fst data), <- (length_map fst catalog).
  apply NoDup_incl_length; assumption.
Qed.

Lemma sweep_data_keys_witness :
  NoDup (map fst [("xqsystem/login", "⚪")])
  /\ incl (map fst [("xqsystem/login", "⚪")])
          (map fst [("xqsystem/login", "🟢"); ("xqsystem/login", "⚪")])
  /\ (List.length (report_lines [("xqsystem/login", "⚪")])
      <= List.length [("xqsystem/login", "🟢"); ("xqsystem/login", "⚪")])%nat.
Proof.
  apply (sweep_data_keys (toy_client [] [])
           [("xqsystem/login", "🟢"); ("xqsystem/login", "⚪")]
           [("xqsystem/login", "⚪")] [] [] []).
  reflexivity.
Defined.

(** ** The shipped catalog on the shipped client, whatever the router does *)

Lemma stops_at_missing_method {S : Type} (client : Client S) (code method : string)
      (rest : list (string * string)) :
  is_sentinel method = false ->
  (forall s, getattr client s method = None) ->
  stops_within client ((code, method) :: rest) [].
Proof.
  intros Hsentinel Hattr data s. exists AttributeError, 0%nat.
  rewrite probe_all_cons, (probe_missing_method client code method data s Hsentinel (Hattr s)).
  repeat split.
Qed.

Lemma stops_after_sentinel {S : Type} (client : Client S) (code method : string)
      (rest : list (string * string)) (calls : list string) :
  is_sentinel method = true ->
  stops_within client rest calls ->
  stops_within client ((code, method) :: rest) calls.
Proof.
  intros Hsentinel Hrest data s.
  rewrite probe_all_cons, (probe_sentinel client code method data s Hsentinel).
  destruct (Hrest (dict_set code method data) s) as (e & n & He & Hluci & Hstarted).
  destruct (probe_all client rest (dict_set code method data) s) as [[r s1] t].
  exists e, n. simpl in *. auto.
Qed.

Lemma stops_after_method {S : Type} (client : Client S) (code method : string)
      (rest : list (string * string)) (calls : list string) :
  is_sentinel method = false ->
  (forall s, exists call, getattr client s method = Some (Method call)) ->
  stops_within client rest calls ->
  stops_within client ((code, method) :: rest) (method :: calls).
Proof.
  intros Hsentinel Hattr Hrest data s.
  rewrite probe_all_cons. unfold probe. rewrite Hsentinel.
  destruct (Hattr s) as [call ->].
  destruct (call s) as [[[]|e] s1].
  - destruct (Hrest (dict_set code "🟢" data) s1) as (e & n & He & Hluci & Hstarted).
    destruct (probe_all client rest (dict_set code "🟢" data) s1) as [[r s2] t].
    exists e, (Datatypes.S n). simpl in *. rewrite Hstarted. auto.
  - destruct (isinstance_LuciError e) eqn:Hluci0.
    + destruct (Hrest (dict_set code "🔴" data) s1) as (e' & n & He & Hluci & Hstarted).
      destruct (probe_all client rest (dict_set code "🔴" data) s1) as [[r s2] t].
      exists e', (Datatypes.S n). simpl in *. rewrite Hstarted. auto.
    + exists e, 1%nat. simpl. auto.
Qed.

(** The shipped catalog on the client of luci.py: two sentinels, three
    methods the class has, and [rom_update], which it has not. *)
Lemma shipped_catalog_stops (cfg : Const) (env : Env)
      (inherited : string -> option (attribute (LuciClient * World))) :
  stops_within (LuciClient_object cfg env inherited) SELF_CHECK_METHODS
               ["status"; "mode"; "topo_graph"].
Proof.
  unfold SELF_CHECK_METHODS.
  do 2 (apply stops_after_sentinel; [reflexivity|]).
  do 3 (apply stops_after_method;
        [reflexivity | intros s0; eexists; reflexivity |]).
  apply stops_at_missing_method; [reflexivity | intros s0; reflexivity].
Qed.

(** X24. Whatever the router answers, the sweep of the shipped catalog on the
    client of luci.py raises, and what it raises is no [LuciError]; the only
    calls it can have begun are [status], [mode] and [topo_graph], in this
    order: it never gets past [rom_update]. *)
Theorem shipped_sweep_stops (cfg : Const) (env : Env)
        (inherited : string -> option (attribute (LuciClient * World)))
        (host : Host) (model : string) (s : LuciClient * World) :
  exists e n,
    fst (fst (async_self_check cfg host (LuciClient_object cfg env inherited) model s))
    = Raise e
    /\ isinstance_LuciError e = false
    /\ started (snd (async_self_check cfg host (LuciClient_object cfg env inherited)
                                      model s))
       = firstn n ["status"; "mode"; "topo_graph"].
Proof.
  destruct (shipped_catalog_stops cfg env inherited [] s)
    as (e & n & He & Hluci & Hstarted).
  exists e, n. unfold async_self_check, self_check.
  destruct (probe_all (LuciClient_object cfg env inherited) SELF_CHECK_METHODS [] s)
    as [[r s1] t].
  simpl in He. subst r. simpl. auto.
Qed.

(** C1. The claim fails on the shipped code. The shipped catalog has
    thirteen probeable entries, and on the client of luci.py, whatever the
    router answers, the sweep begins fewer calls than that, none but
    [status], [mode] and [topo_graph], and renders no report: it ends in an
    exception. With a router that accepts every call and a client that
    opens every time, that is the [AttributeError] of [rom_update], after
    three calls. *)
Theorem shipped_sweep_misses_entries (cfg : Const) (env : Env)
        (inherited : string -> option (attribute (LuciClient * World)))
        (host : Host) (model : string) (s : LuciClient * World) :
  map snd (probeable SELF_CHECK_METHODS)
  = ["status"; "mode"; "topo_graph"; "rom_update"; "wan_info"; "led";
     "wifi_detail_all"; "wifi_diag_detail_all"; "avaliable_channels";
     "wifi_connect_devices"; "device_list"; "wifi_ap_signal"; "new_status"]
  /\ (exists n,
         started (snd (async_self_check cfg host (LuciClient_object cfg env inherited)
                                        model s))
         = firstn n ["status"; "mode"; "topo_graph"])
  /\ (List.length
        (started (snd (async_self_check cfg host (LuciClient_object cfg env inherited)
                                        model s)))
      < List.length (probeable SELF_CHECK_METHODS))%nat
  /\ (forall report,
         fst (fst (async_self_check cfg host (LuciClient_object cfg env inherited)
                                    model s))
         <> Ok report)
  /\ fst (fst (async_self_check
                 example_cfg example_host
                 (LuciClient_object example_cfg
                                    (steady (reply 200 (json_object "code" "0")))
                                    no_inherited)
                 "R3600" (logged_in "abc", fresh)))
     = Raise AttributeError
  /\ started (snd (async_self_check
                     example_cfg example_host
                     (LuciClient_object example_cfg
                                        (steady (reply 200 (json_object "code" "0")))
                                        no_inherited)
                     "R3600" (logged_in "abc", fresh)))
     = ["status"; "mode"; "topo_graph"].
Proof.
  split; [reflexivity|].
  destruct (shipped_catalog_stops cfg env inherited [] s)
    as (e & n & He & Hluci & Hstarted).
  unfold async_self_check at 1 2 3, self_check.
  destruct (probe_all (LuciClient_object cfg env inherited) SELF_CHECK_METHODS [] s)
    as [[r s1] t].
  simpl in He, Hstarted. subst r. cbn [fst snd].
  split; [exists n; exact Hstarted|].
  split.
  - rewrite Hstarted. change (List.length (probeable SELF_CHECK_METHODS)) with 13%nat.
    rewrite length_firstn. simpl List.length. lia.
  - split; [discriminate|]. split; vm_compute; reflexivity.
Qed.

(** C9. The claim fails on the shipped code. Four probeable entries of the
    shipped catalog name a method that the client of luci.py has not. When
    a sweep comes to such an entry, whatever catalog it is part of, no call
    is made and nothing is recorded for it, neither green nor red:
    [getattr] raises [AttributeError], and the sweep ends there with that
    exception, the entries after it unprobed and no report made. *)
Theorem missing_method_ends_sweep (cfg : Const) (env : Env)
        (inherited : string -> option (attribute (LuciClient * World)))
        (host : Host) (before after : list (string * string)) (code method : string)
        (model : string) (s s1 : LuciClient * World)
        (data1 : list (string * string)) (t1 : list event) :
  In method ["rom_update"; "wifi_diag_detail_all"; "avaliable_channels";
             "wifi_ap_signal"] ->
  probe_all (LuciClient_object cfg env inherited) before [] s = (Ok data1, s1, t1) ->
  In method (map snd (probeable SELF_CHECK_METHODS))
  /\ probe (LuciClient_object cfg env inherited) (code, method) data1 s1
     = (Raise AttributeError, s1, [])
  /\ self_check cfg host (LuciClient_object cfg env inherited)
                (before ++ (code, method) :: after) model s
     = (Raise AttributeError, s1, t1).
Proof.
  intros Hmethod Hbefore.
  assert (Hprobe : probe (LuciClient_object cfg env inherited) (code, method) data1 s1
                   = (Raise AttributeError, s1, [])).
  { apply probe_missing_method;
      destruct Hmethod as [<- | [<- | [<- | [<- | []]]]]; reflexivity. }
  split; [|split; [exact Hprobe|]].
  - destruct Hmethod as [<- | [<- | [<- | [<- | []]]]]; simpl; tauto.
  - unfold self_check.
    now rewrite probe_all_app, Hbefore, probe_all_cons, Hprobe, app_nil_r.
Qed.

(** The shipped sweep, with a router that accepts every call: it comes to
    [rom_update] after three calls and ends there. *)
Lemma missing_method_ends_sweep_witness :
  fst (fst (async_self_check
              example_cfg example_host
              (LuciClient_object example_cfg
                                 (steady (reply 200 (json_object "code" "0")))
                                 no_inherited)
              "R3600" (logged_in "abc", fresh)))
  = Raise AttributeError
  /\ started (snd (async_self_check
                     example_cfg example_host
                     (LuciClient_object example_cfg
                                        (steady (reply 200 (json_object "code" "0")))
                                        no_inherited)
                     "R3600" (logged_in "abc", fresh)))
     = ["status"; "mode"; "topo_graph"].
Proof.
  destruct (probe_all (LuciClient_object example_cfg
                                         (steady (reply 200 (json_object "code" "0")))
                                         no_inherited)
                      (firstn 5 SELF_CHECK_METHODS) [] (logged_in "abc", fresh))
    as [[[data1|e] s1] t1] eqn:Hbefore;
    [|vm_compute in Hbefore; discriminate Hbefore].
  destruct (missing_method_ends_sweep
              example_cfg (steady (reply 200 (json_object "code" "0"))) no_inherited
              example_host (firstn 5 SELF_CHECK_METHODS) (skipn 6 SELF_CHECK_METHODS)
              "xqsystem/check_rom_update" "rom_update" "R3600"
              (logged_in "abc", fresh) s1 data1 t1 (or_introl eq_refl) Hbefore)
    as (_ & _ & Hsweep).
  unfold async_self_check.
  change SELF_CHECK_METHODS
    with (firstn 5 SELF_CHECK_METHODS
            ++ ("xqsystem/check_rom_update", "rom_update")
            :: skipn 6 SELF_CHECK_METHODS)%list at 1 2.
  rewrite Hsweep. cbn [fst snd]. split; [reflexivity|].
  vm_compute in Hbefore. injection Hbefore as _ _ <-. reflexivity.
Defined.
